(** * Notion AI assistant: the NLP core (processor, executor, system)

    A shallow embedding of [src/nlp/processor.ts], [src/nlp/commands.ts] and
    [src/nlp/index.ts].

    - A JavaScript string is the list of its UTF-16 code units, so that
      [length] is JavaScript's [.length].
    - Values that the code handles as [any] (the parsed classifier reply,
      entities, command parameters) are terms of [value], with JavaScript's
      truthiness, [||] and property access written out.
    - [async] methods run in a state-and-exception monad over a [Machine]:
      the processor's session map, the trace of calls made to the two
      external collaborators (OpenAI and the Notion services) and the number
      of clock reads.  The collaborators are oracles of an [Env]. *)

From Stdlib Require Import String Ascii QArith DecimalString.
From stdpp Require Import gmap list fin_maps.

Local Open Scope N_scope.

(** ** Strings *)

Abbreviation jsstring := (list N).

(** Code units of a source literal: the literal's bytes are decoded as
    UTF-8 and every code point above the BMP becomes a surrogate pair. *)
Definition code_units (cp : N) : jsstring :=
  if cp <? 65536 then [cp]
  else [55296 + (cp - 65536) / 1024; 56320 + (cp - 65536) mod 1024].

Fixpoint utf8_units (need : nat) (acc : N) (bs : list N) : jsstring :=
  match bs with
  | [] => []
  | b :: bs' =>
      match need with
      | O =>
          if b <? 128 then b :: utf8_units 0 0 bs'
          else if b <? 224 then utf8_units 1 (N.land b 31) bs'
          else if b <? 240 then utf8_units 2 (N.land b 15) bs'
          else utf8_units 3 (N.land b 7) bs'
      | S O => code_units (acc * 64 + N.land b 63) ++ utf8_units 0 0 bs'
      | S n => utf8_units n (acc * 64 + N.land b 63) bs'
      end
  end.

Definition js (s : string) : jsstring :=
  utf8_units 0 0 (map N_of_ascii (list_ascii_of_string s)).

(** [\s] of a regular expression and the characters removed by [trim()]:
    WhiteSpace and LineTerminator of ECMAScript. *)
Definition is_space (c : N) : bool :=
  (c =? 9) || (c =? 10) || (c =? 11) || (c =? 12) || (c =? 13) || (c =? 32)
  || (c =? 160) || (c =? 5760) || ((8192 <=? c) && (c <=? 8202))
  || (c =? 8232) || (c =? 8233) || (c =? 8239) || (c =? 8287)
  || (c =? 12288) || (c =? 65279).

Fixpoint trimStart (s : jsstring) : jsstring :=
  match s with
  | c :: s' => if is_space c then trimStart s' else s
  | [] => []
  end.

Definition trimEnd (s : jsstring) : jsstring := rev (trimStart (rev s)).

Definition trim (s : jsstring) : jsstring := trimEnd (trimStart s).

(** Case folding of the [i] flag (without [u]) on an ASCII pattern: only the
    ASCII capitals fold onto the pattern's letters. *)
Definition fold_case (c : N) : N :=
  if (65 <=? c) && (c <=? 90) then c + 32 else c.

Fixpoint starts_with_ci (pat s : jsstring) : option jsstring :=
  match pat, s with
  | [], _ => Some s
  | p :: pat', c :: s' =>
      if fold_case c =? p then starts_with_ci pat' s' else None
  | _ :: _, [] => None
  end.

Fixpoint starts_with (pat s : jsstring) : bool :=
  match pat, s with
  | [], _ => true
  | p :: pat', c :: s' => (c =? p) && starts_with pat' s'
  | _ :: _, [] => false
  end.

(** [s.includes(pat)] *)
Fixpoint includes (s pat : jsstring) : bool :=
  starts_with pat s ||
  match s with
  | [] => false
  | _ :: s' => includes s' pat
  end.

Fixpoint jsstring_eqb (a b : jsstring) : bool :=
  match a, b with
  | [], [] => true
  | x :: a', y :: b' => (x =? y) && jsstring_eqb a' b'
  | _, _ => false
  end.

(** [xs.join(sep)] on strings *)
Fixpoint join (sep : jsstring) (xs : list jsstring) : jsstring :=
  match xs with
  | [] => []
  | [x] => x
  | x :: xs' => x ++ sep ++ join sep xs'
  end.

(** [arr.slice(-n)] *)
Definition slice_last {A} (n : nat) (l : list A) : list A :=
  drop (length l - n) l.

(** ** Values *)

#[warnings="-register-all"]
Inductive value :=
| VUndefined
| VNull
| VBool (b : bool)
| VNum (q : Q)
| VStr (s : jsstring)
| VDate (t : Z)
| VArr (items : list value)
| VObj (fields : list (jsstring * value)).

(** What is thrown: an instance of [Error] with its [message], or any
    other value. *)
Inductive exn :=
| ErrorObj (message : jsstring)
| Thrown (v : value).

Inductive result (A : Type) :=
| Ok (a : A)
| Throw (e : exn).
Arguments Ok {A} a.
Arguments Throw {A} e.

(** [!!v] *)
Definition truthy (v : value) : bool :=
  match v with
  | VUndefined | VNull => false
  | VBool b => b
  | VNum q => negb (Qeq_bool q 0)
  | VStr s => negb (jsstring_eqb s [])
  | VDate _ | VArr _ | VObj _ => true
  end.

(** [a || b] *)
Definition or_else (a b : value) : value := if truthy a then a else b.

Fixpoint lookup_field (k : jsstring) (fs : list (jsstring * value)) : option value :=
  match fs with
  | [] => None
  | (k', v) :: fs' => if jsstring_eqb k k' then Some v else lookup_field k fs'
  end.

(** [v.k] for the property names the code reads ([intent], [entities],
    [title], ...): own properties of an object, [undefined] on the other
    values, none of which inherits such a property. *)
Definition prop (v : value) (k : jsstring) : value :=
  match v with
  | VObj fs => default VUndefined (lookup_field k fs)
  | _ => VUndefined
  end.

Definition nullish (v : value) : bool :=
  match v with
  | VUndefined | VNull => true
  | _ => false
  end.

(** ** Data of the processor and of the executor *)

(** One element of [ConversationContext.history]. *)
Record HistoryEntry := {
  h_input : jsstring;
  h_output : value;
  h_timestamp : Z
}.

(** [ConversationContext]; [userId], [currentTask] and [currentProject]
    are never assigned by the code and are left out. *)
Record ConversationContext := {
  sessionId : jsstring;
  history : list HistoryEntry
}.

(** [AICommand] as [extractCommand] builds it. *)
Record AICommand := {
  c_type : jsstring;
  c_target : jsstring;
  c_action : jsstring
}.

(** [NLPResult].  [command] is [None] when the property is absent. *)
Record NLPResult := {
  intent : value;
  entities : value;
  confidence : value;
  command : option AICommand;
  parameters : value;
  response : value
}.

(** Payloads of the Notion services, with the fields the executor reads.
    A call to the services answers with a well-formed payload or throws;
    the fields themselves are [any]. *)
Record Task := {
  task_id : value;
  task_title : value;
  task_status : value;
  task_priority : value
}.

Record Note := {
  note_title : value;
  note_tags : list value
}.

Record Project := {
  project_name : value
}.

Record DashboardSummary := {
  tasks_todo : value;
  tasks_inProgress : value;
  tasks_completed : value;
  notes_total : value;
  projects_active : value;
  tasksCompletedToday : value
}.

Record ProductivityStats := {
  tasksCompleted : value;
  notesCreated : value;
  averageCompletionTime : value;
  completionRate : value;
  currentStreak : value
}.

Inductive payload :=
| PTask (t : Task)
| PTasks (ts : list Task)
| PNote (n : Note)
| PNotes (ns : list Note)
| PProject (p : Project)
| PSummary (s : DashboardSummary)
| PStats (s : ProductivityStats).

(** [CommandResult]; [data] and [error] are [None] when absent. *)
Record CommandResult := {
  success : bool;
  message : value;
  data : option payload;
  error : option jsstring
}.

(** Calls that leave the process. *)
Inductive event :=
| OpenAICreate (recent : list HistoryEntry) (input : jsstring)
| CreateTask (taskData : value)
| SearchTasks (filters : value)
| UpdateTask (taskId updates : value)
| CompleteTask (taskId : value)
| CreateNote (noteData : value)
| SearchNotes (filters : value)
| CreateProject (projectData : value)
| GetDashboardSummary
| GetProductivityStats (period : value).

(** The environment: built-ins of the JavaScript runtime that are not
    modelled here, the clock, and the two collaborators.  A collaborator
    answers from the calls made so far and the request. *)
Record Env := {
  JSON_parse : jsstring -> option value;
  toLowerCase : jsstring -> jsstring;
  Date_parse : jsstring -> option Z;
  addDays : Z -> Z -> Z;
  NumberToString : Q -> jsstring;
  StringToNumber : jsstring -> option Q;
  DateToString : Z -> jsstring;
  typeErrorMessage : value -> jsstring -> jsstring;
  clock : nat -> Z;
  openai_create : list event -> list HistoryEntry -> jsstring -> result (option jsstring);
  notion_createTask : list event -> value -> result Task;
  notion_searchTasks : list event -> value -> result (list Task);
  notion_updateTask : list event -> value -> value -> result Task;
  notion_completeTask : list event -> value -> result Task;
  notion_createNote : list event -> value -> result Note;
  notion_searchNotes : list event -> value -> result (list Note);
  notion_createProject : list event -> value -> result Project;
  notion_getDashboardSummary : list event -> result DashboardSummary;
  notion_getProductivityStats : list event -> value -> result ProductivityStats
}.

(** ** The monad of [async] methods *)

Record Machine := {
  context : gmap jsstring ConversationContext;
  trace : list event;
  ticks : nat
}.

Definition M (A : Type) : Type := Machine -> result A * Machine.

Definition ret {A} (a : A) : M A := fun m => (Ok a, m).

Definition throw {A} (e : exn) : M A := fun m => (Throw e, m).

Definition bind {A B} (c : M A) (k : A -> M B) : M B :=
  fun m =>
    match c m with
    | (Ok a, m') => k a m'
    | (Throw e, m') => (Throw e, m')
    end.

(** [try { c } catch (error) { h error }] *)
Definition try_catch {A} (c : M A) (h : exn -> M A) : M A :=
  fun m =>
    match c m with
    | (Ok a, m') => (Ok a, m')
    | (Throw e, m') => h e m'
    end.

Declare Scope js_scope.
Delimit Scope js_scope with M.
Notation "x <- c1 ;; c2" := (bind c1 (fun x => c2))
  (at level 100, c1 at next level, right associativity) : js_scope.
Notation "c1 ;; c2" := (bind c1 (fun _ => c2))
  (at level 100, right associativity) : js_scope.
Open Scope js_scope.

Definition getContextMap : M (gmap jsstring ConversationContext) :=
  fun m => (Ok (context m), m).

Definition setContextMap (cm : gmap jsstring ConversationContext) : M unit :=
  fun m => (Ok tt, {| context := cm; trace := trace m; ticks := ticks m |}).

(** An awaited call to a collaborator: the call is recorded, the answer is
    the collaborator's. *)
Definition call {A} (ev : event) (answer : list event -> result A) : M A :=
  fun m =>
    (answer (trace m),
     {| context := context m; trace := trace m ++ [ev]; ticks := ticks m |}).

(** [error instanceof Error ? error.message : 'Erro desconhecido'] *)
Definition error_message (e : exn) : jsstring :=
  match e with
  | ErrorObj msg => msg
  | Thrown _ => js "Erro desconhecido"
  end.

Section Runtime.

Variable env : Env.

(** [new Date()] *)
Definition now : M Z :=
  fun m =>
    (Ok (clock env (ticks m)),
     {| context := context m; trace := trace m; ticks := S (ticks m) |}).

(** [v.k] where [v] may be [null] or [undefined] *)
Definition get (v : value) (k : jsstring) : M value :=
  if nullish v then throw (ErrorObj (typeErrorMessage env v k))
  else ret (prop v k).

(** String conversion of a template literal [`${v}`]. *)
Fixpoint ToString (v : value) : jsstring :=
  match v with
  | VUndefined => js "undefined"
  | VNull => js "null"
  | VBool b => if b then js "true" else js "false"
  | VNum q => NumberToString env q
  | VStr s => s
  | VDate t => DateToString env t
  | VArr items =>
      join (js ",") (map (fun x => if nullish x then [] else ToString x) items)
  | VObj _ => js "[object Object]"
  end.

(** [x.toLowerCase()] where [x] is [any]: a method of strings only. *)
Definition call_toLowerCase (v : value) : M jsstring :=
  match v with
  | VStr s => ret (toLowerCase env s)
  | _ => throw (ErrorObj (typeErrorMessage env v (js "toLowerCase")))
  end.

End Runtime.

(** ** [NLPProcessor] (src/nlp/processor.ts) *)

Definition alternatives (alts : list string) : list jsstring := map js alts.

(** [input.replace(/^(criar|adicionar|nova?|novo)\s+/i, '')]: the first
    alternative that is followed by white space is removed together with
    the whole run of white space ([nova?] is [nova], then [nov]). *)
Definition match_verb (input alt : jsstring) : option jsstring :=
  match starts_with_ci alt input with
  | Some (c :: rest) => if is_space c then Some (trimStart rest) else None
  | _ => None
  end.

Fixpoint first_match (input : jsstring) (alts : list jsstring) : option jsstring :=
  match alts with
  | [] => None
  | alt :: alts' =>
      match match_verb input alt with
      | Some rest => Some rest
      | None => first_match input alts'
      end
  end.

Definition strip_leading_verb (input : jsstring) : jsstring :=
  default input
    (first_match input (alternatives ["criar"; "adicionar"; "nova"; "nov"; "novo"]%string)).

(** [s.replace(/\s+(tarefa|nota|projeto)\s*$/i, '')]: the match ends at the
    end of the string and starts at the leftmost position, the beginning
    of the run of white space before the noun; it is read here from the
    end of the string. *)
Definition strip_trailing_noun (s : jsstring) : jsstring :=
  default s
    (first_match (trimStart (rev s))
       (map (fun alt => rev alt) (alternatives ["tarefa"; "nota"; "projeto"]%string))
     ≫= fun rest => Some (rev rest)).

Definition cleanInput (input : jsstring) : jsstring :=
  trim (strip_trailing_noun (strip_leading_verb input)).

Definition extractTitleFromInput (input : jsstring) : jsstring :=
  if jsstring_eqb (cleanInput input) [] then js "Nova tarefa" else cleanInput input.

Definition intent_is (v : value) (name : string) : bool :=
  match v with
  | VStr s => jsstring_eqb s (js name)
  | _ => false
  end.

Definition conversation_fallback : value :=
  VObj [(js "intent", VStr (js "conversation"));
        (js "entities", VObj []);
        (js "confidence", VNum (1 # 2));
        (js "response",
         VStr (js "Entendi sua mensagem, mas preciso de mais clareza para ajudar melhor."))].

Definition error_result : NLPResult :=
  {| intent := VStr (js "error");
     entities := VObj [];
     confidence := VNum 0;
     command := None;
     parameters := VUndefined;
     response :=
       VStr (js "Desculpe, não consegui entender sua solicitação. Pode reformular?") |}.

Section Processor.

Variable env : Env.

Definition getOrCreateContext (sid : jsstring) : M ConversationContext :=
  cm <- getContextMap;;
  match cm !! sid with
  | Some c => ret c
  | None =>
      let c := {| sessionId := sid; history := [] |} in
      setContextMap (<[sid := c]> cm);;
      ret c
  end.

Definition updateContext (sid input : jsstring) (output : value) : M unit :=
  c <- getOrCreateContext sid;;
  timestamp <- now env;;
  let pushed :=
    history c ++ [{| h_input := input; h_output := output; h_timestamp := timestamp |}] in
  let kept := if (10 <? length pushed)%nat then slice_last 10 pushed else pushed in
  cm <- getContextMap;;
  setContextMap (<[sid := {| sessionId := sessionId c; history := kept |}]> cm).

Definition clearContext (sid : jsstring) : M unit :=
  cm <- getContextMap;;
  setContextMap (delete sid cm).

Definition normalizePriority (priority : value) : M value :=
  if negb (truthy priority) then ret VUndefined
  else
    p <- call_toLowerCase env priority;;
    if includes p (js "alta") || includes p (js "high") || includes p (js "urgente")
    then ret (VStr (js "Alta"))
    else if includes p (js "baixa") || includes p (js "low")
    then ret (VStr (js "Baixa"))
    else ret (VStr (js "Média")).

Definition parseDate (dateText : value) : M value :=
  if negb (truthy dateText) then ret VUndefined
  else
    today <- now env;;
    let tomorrow := addDays env today 1 in
    text <- call_toLowerCase env dateText;;
    if includes text (js "hoje") then ret (VDate today)
    else if includes text (js "amanhã") then ret (VDate tomorrow)
    else if includes text (js "semana") then ret (VDate (addDays env today 7))
    else
      match dateText with
      | VStr s =>
          match Date_parse env s with
          | Some parsed => ret (VDate parsed)
          | None => ret VUndefined
          end
      | _ => ret VUndefined
      end.

Definition analyzeIntent (input : jsstring) (c : ConversationContext) : M value :=
  let recent := slice_last 3 (history c) in
  content <- call (OpenAICreate recent input)
                  (fun tr => openai_create env tr recent input);;
  match content with
  | Some (u :: rest) =>
      match JSON_parse env (u :: rest) with
      | Some parsed => ret parsed
      | None => ret conversation_fallback
      end
  | _ => throw (ErrorObj (js "Resposta vazia da OpenAI"))
  end.

Definition cmd (type target action : string) : option AICommand :=
  Some {| c_type := js type; c_target := js target; c_action := js action |}.

Definition extractCommand (input : jsstring) (analysis : value)
  : M (option AICommand * value) :=
  intent <- get env analysis (js "intent");;
  entities <- get env analysis (js "entities");;
  if intent_is intent "create_task" then
    title <- get env entities (js "title");;
    description <- get env entities (js "description");;
    priority <- normalizePriority (prop entities (js "priority"));;
    dueDate <- parseDate (prop entities (js "due_date"));;
    ret (cmd "create" "task" "create_task",
         VObj [(js "title", or_else title (VStr (extractTitleFromInput input)));
               (js "description", description);
               (js "priority", priority);
               (js "dueDate", dueDate);
               (js "tags", or_else (prop entities (js "tags")) (VArr []))])
  else if intent_is intent "update_task" then
    taskId <- get env entities (js "task_id");;
    priority <- normalizePriority (prop entities (js "priority"));;
    dueDate <- parseDate (prop entities (js "due_date"));;
    ret (cmd "update" "task" "update_task",
         VObj [(js "taskId", taskId);
               (js "updates",
                VObj [(js "title", prop entities (js "title"));
                      (js "description", prop entities (js "description"));
                      (js "priority", priority);
                      (js "status", prop entities (js "status"));
                      (js "dueDate", dueDate)])])
  else if intent_is intent "complete_task" then
    taskId <- get env entities (js "task_id");;
    ret (cmd "update" "task" "complete_task",
         VObj [(js "taskId", taskId);
               (js "title", prop entities (js "title"))])
  else if intent_is intent "list_tasks" then
    status <- get env entities (js "status");;
    priority <- normalizePriority (prop entities (js "priority"));;
    ret (cmd "read" "task" "list_tasks",
         VObj [(js "status", status);
               (js "priority", priority);
               (js "project", prop entities (js "project_name"));
               (js "limit", or_else (prop entities (js "limit")) (VNum 10))])
  else if intent_is intent "create_note" then
    title <- get env entities (js "title");;
    ret (cmd "create" "note" "create_note",
         VObj [(js "title", or_else title (VStr (extractTitleFromInput input)));
               (js "content", or_else (prop entities (js "description")) (VStr input));
               (js "tags", or_else (prop entities (js "tags")) (VArr []))])
  else if intent_is intent "search_notes" then
    search_query <- get env entities (js "search_query");;
    ret (cmd "read" "note" "search_notes",
         VObj [(js "query", or_else search_query (VStr input));
               (js "tags", prop entities (js "tags"))])
  else if intent_is intent "create_project" then
    title <- get env entities (js "title");;
    ret (cmd "create" "project" "create_project",
         VObj [(js "name", or_else title (prop entities (js "project_name")));
               (js "description", prop entities (js "description"));
               (js "status", VStr (js "Ativo"))])
  else if intent_is intent "dashboard" then
    ret (cmd "read" "dashboard" "get_summary", VObj [])
  else if intent_is intent "analytics" then
    period <- get env entities (js "period");;
    ret (cmd "read" "analytics" "get_stats",
         VObj [(js "period", or_else period (VStr (js "week")))])
  else ret (None, VUndefined).

(** The [try] block of [processInput]. *)
Definition processInput_try (input sid : jsstring) : M NLPResult :=
  c <- getOrCreateContext sid;;
  analysis <- analyzeIntent input c;;
  extracted <- extractCommand input analysis;;
  updateContext sid input (or_else (prop analysis (js "response")) (VStr []));;
  ret {| intent := prop analysis (js "intent");
         entities := prop analysis (js "entities");
         confidence := prop analysis (js "confidence");
         command := fst extracted;
         parameters := snd extracted;
         response := prop analysis (js "response") |}.

Definition processInput (input : jsstring) (sessionId : option jsstring) : M NLPResult :=
  let sid := default (js "default") sessionId in
  try_catch (processInput_try input sid) (fun _ => ret error_result).

(** [getStats]: the loop over [this.context.values()] adds the lengths up;
    the order of the visit does not change the sum. *)
Record Stats := {
  activeSessions : nat;
  totalInteractions : nat
}.

Definition getStats (m : Machine) : Stats :=
  {| activeSessions := size (context m);
     totalInteractions :=
       map_fold (fun _ c total => (total + length (history c))%nat) 0%nat (context m) |}.

End Processor.

(** ** [CommandExecutor] (src/nlp/commands.ts) *)

Definition quote : jsstring := [34].
Definition newline : jsstring := [10].

Definition failed (msg : string) (err : jsstring) : CommandResult :=
  {| success := false; message := VStr (js msg); data := None; error := Some err |}.

Definition succeeded (msg : jsstring) (d : payload) : CommandResult :=
  {| success := true; message := VStr msg; data := Some d; error := None |}.

Section Executor.

Variable env : Env.

Definition natToString (n : nat) : jsstring :=
  NumberToString env (inject_Z (Z.of_nat n)).

(** Number conversion, for the bound given to [slice]. *)
Definition ToNumber (v : value) : option Q :=
  match v with
  | VUndefined => None
  | VNull => Some 0%Q
  | VBool b => Some (if b then 1%Q else 0%Q)
  | VNum q => Some q
  | VStr s => StringToNumber env s
  | VDate t => Some (inject_Z t)
  | VArr _ => StringToNumber env (ToString env v)
  | VObj _ => None
  end.

Definition truncate (q : Q) : Z := Z.quot (Qnum q) (Zpos (Qden q)).

(** [l.slice(0, bound)] *)
Definition slice_upto {A} (bound : value) (l : list A) : list A :=
  let len := Z.of_nat (length l) in
  let rel :=
    match bound with
    | VUndefined => len
    | _ => match ToNumber bound with Some q => truncate q | None => 0%Z end
    end in
  take (Z.to_nat (if (rel <? 0)%Z then Z.max (len + rel) 0 else Z.min rel len)) l.

Definition createTask (params : value) : M CommandResult :=
  try_catch
    (title <- get env params (js "title");;
     let taskData :=
       VObj [(js "title", or_else title (VStr (js "Nova tarefa")));
             (js "description", prop params (js "description"));
             (js "priority", or_else (prop params (js "priority")) (VStr (js "Média")));
             (js "status", VStr (js "A fazer"));
             (js "dueDate", prop params (js "dueDate"));
             (js "tags", or_else (prop params (js "tags")) (VArr []))] in
     task <- call (CreateTask taskData) (fun tr => notion_createTask env tr taskData);;
     ret (succeeded
            (js "✅ Tarefa " ++ quote ++ ToString env (task_title task) ++ quote
               ++ js " criada com sucesso!")
            (PTask task)))
    (fun e => ret (failed "Não foi possível criar a tarefa." (error_message e))).

Definition not_found (title : value) : CommandResult :=
  {| success := false;
     message :=
       VStr (js "Tarefa " ++ quote ++ ToString env title ++ quote ++ js " não encontrada.");
     data := None;
     error := Some (js "Tarefa não encontrada") |}.

Definition updateTask (params : value) : M CommandResult :=
  try_catch
    (taskId <- get env params (js "taskId");;
     let title := prop params (js "title") in
     if negb (truthy taskId) && negb (truthy title) then
       ret (failed "É necessário especificar qual tarefa atualizar."
              (js "ID ou título da tarefa não fornecido"))
     else
       let update (taskId : value) : M CommandResult :=
         let updates := prop params (js "updates") in
         updatedTask <- call (UpdateTask taskId updates)
                             (fun tr => notion_updateTask env tr taskId updates);;
         ret (succeeded
                (js "✅ Tarefa " ++ quote ++ ToString env (task_title updatedTask) ++ quote
                   ++ js " atualizada com sucesso!")
                (PTask updatedTask)) in
       if negb (truthy taskId) && truthy title then
         let filters := VObj [(js "title", title)] in
         tasks <- call (SearchTasks filters) (fun tr => notion_searchTasks env tr filters);;
         match tasks with
         | [] => ret (not_found title)
         | first :: _ => update (task_id first)
         end
       else update taskId)
    (fun e => ret (failed "Não foi possível atualizar a tarefa." (error_message e))).

Definition completeTask (params : value) : M CommandResult :=
  try_catch
    (taskId <- get env params (js "taskId");;
     let title := prop params (js "title") in
     if negb (truthy taskId) && negb (truthy title) then
       ret (failed "É necessário especificar qual tarefa completar."
              (js "ID ou título da tarefa não fornecido"))
     else
       let complete (taskId : value) : M CommandResult :=
         completedTask <- call (CompleteTask taskId)
                               (fun tr => notion_completeTask env tr taskId);;
         ret (succeeded
                (js "🎉 Tarefa " ++ quote ++ ToString env (task_title completedTask) ++ quote
                   ++ js " marcada como concluída!")
                (PTask completedTask)) in
       if negb (truthy taskId) && truthy title then
         let filters := VObj [(js "title", title)] in
         tasks <- call (SearchTasks filters) (fun tr => notion_searchTasks env tr filters);;
         match tasks with
         | [] => ret (not_found title)
         | first :: _ => complete (task_id first)
         end
       else complete taskId)
    (fun e => ret (failed "Não foi possível completar a tarefa." (error_message e))).

Definition listTasks (params : value) : M CommandResult :=
  try_catch
    (status <- get env params (js "status");;
     let filters :=
       VObj (List.filter (fun kv => truthy kv.2)
               [(js "status", status);
                (js "priority", prop params (js "priority"));
                (js "project", prop params (js "project"))]) in
     tasks <- call (SearchTasks filters) (fun tr => notion_searchTasks env tr filters);;
     match tasks with
     | [] =>
         ret (succeeded (js "Nenhuma tarefa encontrada com os filtros especificados.")
                (PTasks []))
     | _ :: _ =>
         let limitedTasks :=
           slice_upto (or_else (prop params (js "limit")) (VNum 10)) tasks in
         let taskList :=
           join newline
             (imap (fun index task =>
                      natToString (index + 1) ++ js ". " ++ ToString env (task_title task)
                        ++ js " (" ++ ToString env (task_status task) ++ js ") - "
                        ++ ToString env (task_priority task))
                   limitedTasks) in
         ret (succeeded
                (js "📋 Encontrei " ++ natToString (length tasks) ++ js " tarefa(s):"
                   ++ newline ++ newline ++ taskList)
                (PTasks limitedTasks))
     end)
    (fun e => ret (failed "Não foi possível listar as tarefas." (error_message e))).

Definition createNote (params : value) : M CommandResult :=
  try_catch
    (title <- get env params (js "title");;
     let noteData :=
       VObj [(js "title", or_else title (VStr (js "Nova nota")));
             (js "content", or_else (prop params (js "content")) (VStr []));
             (js "tags", or_else (prop params (js "tags")) (VArr []))] in
     note <- call (CreateNote noteData) (fun tr => notion_createNote env tr noteData);;
     ret (succeeded
            (js "📝 Nota " ++ quote ++ ToString env (note_title note) ++ quote
               ++ js " criada com sucesso!")
            (PNote note)))
    (fun e => ret (failed "Não foi possível criar a nota." (error_message e))).

Definition searchNotes (params : value) : M CommandResult :=
  try_catch
    (query <- get env params (js "query");;
     let filters := VObj [(js "query", query); (js "tags", prop params (js "tags"))] in
     notes <- call (SearchNotes filters) (fun tr => notion_searchNotes env tr filters);;
     match notes with
     | [] =>
         ret (succeeded (js "Nenhuma nota encontrada com os critérios especificados.")
                (PNotes []))
     | _ :: _ =>
         let noteList :=
           join newline
             (imap (fun index note =>
                      natToString (index + 1) ++ js ". " ++ ToString env (note_title note)
                        ++ match note_tags note with
                           | [] => []
                           | _ :: _ =>
                               js " ["
                                 ++ join (js ", ")
                                      (map (fun t => if nullish t then [] else ToString env t)
                                         (note_tags note))
                                 ++ js "]"
                           end)
                   (take 10 notes)) in
         ret (succeeded
                (js "📚 Encontrei " ++ natToString (length notes) ++ js " nota(s):"
                   ++ newline ++ newline ++ noteList)
                (PNotes notes))
     end)
    (fun e => ret (failed "Não foi possível buscar as notas." (error_message e))).

Definition createProject (params : value) : M CommandResult :=
  try_catch
    (name <- get env params (js "name");;
     let projectData :=
       VObj [(js "name", or_else name (VStr (js "Novo projeto")));
             (js "description", prop params (js "description"));
             (js "status", or_else (prop params (js "status")) (VStr (js "Ativo")))] in
     project <- call (CreateProject projectData)
                     (fun tr => notion_createProject env tr projectData);;
     ret (succeeded
            (js "🚀 Projeto " ++ quote ++ ToString env (project_name project) ++ quote
               ++ js " criado com sucesso!")
            (PProject project)))
    (fun e => ret (failed "Não foi possível criar o projeto." (error_message e))).

Definition getDashboard : M CommandResult :=
  try_catch
    (summary <- call GetDashboardSummary (fun tr => notion_getDashboardSummary env tr);;
     ret (succeeded
            (js "📊 **Dashboard - Resumo**" ++ newline ++ newline
               ++ js "📋 **Tarefas:**" ++ newline
               ++ js "• A fazer: " ++ ToString env (tasks_todo summary) ++ newline
               ++ js "• Em progresso: " ++ ToString env (tasks_inProgress summary) ++ newline
               ++ js "• Concluídas: " ++ ToString env (tasks_completed summary)
               ++ newline ++ newline
               ++ js "📝 **Notas:** " ++ ToString env (notes_total summary) ++ newline
               ++ js "🚀 **Projetos ativos:** " ++ ToString env (projects_active summary)
               ++ newline ++ newline
               ++ js "⚡ **Produtividade hoje:** "
               ++ ToString env (tasksCompletedToday summary) ++ js " tarefas concluídas")
            (PSummary summary)))
    (fun e => ret (failed "Não foi possível obter o dashboard." (error_message e))).

Definition getAnalytics (params : value) : M CommandResult :=
  try_catch
    (requested <- get env params (js "period");;
     let period := or_else requested (VStr (js "week")) in
     stats <- call (GetProductivityStats period)
                   (fun tr => notion_getProductivityStats env tr period);;
     ret (succeeded
            (js "📈 **Estatísticas (" ++ ToString env period ++ js ")**" ++ newline ++ newline
               ++ js "✅ **Tarefas concluídas:** " ++ ToString env (tasksCompleted stats)
               ++ newline
               ++ js "📝 **Notas criadas:** " ++ ToString env (notesCreated stats) ++ newline
               ++ js "⏱️ **Tempo médio por tarefa:** "
               ++ ToString env (averageCompletionTime stats) ++ newline
               ++ js "🎯 **Taxa de conclusão:** " ++ ToString env (completionRate stats)
               ++ js "%" ++ newline
               ++ js "🔥 **Sequência atual:** " ++ ToString env (currentStreak stats)
               ++ js " dias")
            (PStats stats)))
    (fun e => ret (failed "Não foi possível obter as estatísticas." (error_message e))).

Definition action_is (c : AICommand) (name : string) : bool :=
  jsstring_eqb (c_action c) (js name).

Definition executeCommand (nlpResult : NLPResult) : M CommandResult :=
  try_catch
    (match command nlpResult with
     | None =>
         ret {| success := true;
                message := or_else (response nlpResult) (VStr (js "Como posso ajudar você?"));
                data := None;
                error := None |}
     | Some c =>
         let params := parameters nlpResult in
         if action_is c "create_task" then createTask params
         else if action_is c "update_task" then updateTask params
         else if action_is c "complete_task" then completeTask params
         else if action_is c "list_tasks" then listTasks params
         else if action_is c "create_note" then createNote params
         else if action_is c "search_notes" then searchNotes params
         else if action_is c "create_project" then createProject params
         else if action_is c "get_summary" then getDashboard
         else if action_is c "get_stats" then getAnalytics params
         else
           ret (failed "Comando não reconhecido."
                  (js "Ação '" ++ c_action c ++ js "' não implementada"))
     end)
    (fun e => ret (failed "Ocorreu um erro ao executar o comando." (error_message e))).

End Executor.

(** ** [NLPSystem] and [NLPUtils] (src/nlp/index.ts) *)

Section System.

Variable env : Env.

Definition processAndExecute (input : jsstring) (sessionId : option jsstring)
  : M (NLPResult * CommandResult) :=
  nlpResult <- processInput env input sessionId;;
  commandResult <- executeCommand env nlpResult;;
  ret (nlpResult, commandResult).

Definition getSystemStats (m : Machine) : Stats := getStats m.

Definition clearSession (sid : jsstring) : M unit := clearContext sid.

End System.

Record Validation := {
  valid : bool;
  v_message : option jsstring
}.

Definition validateInputLength (input : jsstring) : Validation :=
  if (length input =? 0)%nat then
    {| valid := false; v_message := Some (js "Por favor, digite algo para eu poder ajudar.") |}
  else if (1000 <? length input)%nat then
    {| valid := false;
       v_message := Some (js "Sua mensagem é muito longa. Tente ser mais conciso.") |}
  else {| valid := true; v_message := None |}.

(** ** Test doubles

    [createMockNotionServices] of src/nlp/test.ts, a clock that counts, and
    a classifier that always gives the same answer.  The runtime built-ins
    are given on the inputs the examples use: ASCII lower-casing, decimal
    printing of whole numbers, and a JSON reader that knows the replies
    listed in [replies]. *)

Definition decimal (q : Q) : jsstring :=
  js (NilEmpty.string_of_int (Z.to_int (Z.quot (Qnum q) (Zpos (Qden q))))).

Definition spread_over (id : value) (d : value) (k : string) : value :=
  match d with
  | VObj fs => default (if jsstring_eqb (js k) (js "id") then id else VUndefined)
                       (lookup_field (js k) fs)
  | _ => if jsstring_eqb (js k) (js "id") then id else VUndefined
  end.

Definition mock_task (id d : value) : Task :=
  {| task_id := spread_over id d "id";
     task_title := spread_over id d "title";
     task_status := spread_over id d "status";
     task_priority := spread_over id d "priority" |}.

Definition mock_tasks : list Task :=
  [ {| task_id := VStr (js "1"); task_title := VStr (js "Mock Task 1");
       task_status := VStr (js "A fazer"); task_priority := VStr (js "Alta") |};
    {| task_id := VStr (js "2"); task_title := VStr (js "Mock Task 2");
       task_status := VStr (js "Em progresso"); task_priority := VStr (js "Média") |} ].

Definition mock_notes : list Note :=
  [ {| note_title := VStr (js "Mock Note 1"); note_tags := [VStr (js "test")] |};
    {| note_title := VStr (js "Mock Note 2"); note_tags := [VStr (js "mock")] |} ].

Fixpoint read_reply (table : list (jsstring * value)) (s : jsstring) : option value :=
  match table with
  | [] => None
  | (text, v) :: table' => if jsstring_eqb s text then Some v else read_reply table' s
  end.

(** The services of the test file, with the title search answering [found]
    and the classifier answering [reply]. *)
Definition mock_env (reply : result (option jsstring)) (replies : list (jsstring * value))
    (found : list Task) : Env :=
  {| JSON_parse := read_reply replies;
     toLowerCase := map fold_case;
     Date_parse := fun _ => None;
     addDays := fun t n => (t + 86400000 * n)%Z;
     NumberToString := decimal;
     StringToNumber := fun _ => None;
     DateToString := fun _ => js "Invalid Date";
     typeErrorMessage := fun _ k => js "Cannot read properties (reading '" ++ k ++ js "')";
     clock := fun n => Z.of_nat n;
     openai_create := fun _ _ _ => reply;
     notion_createTask := fun _ d => Ok (mock_task (VStr (js "mock-task-id")) d);
     notion_searchTasks := fun _ _ => Ok found;
     notion_updateTask := fun _ id d => Ok (mock_task id d);
     notion_completeTask := fun _ id =>
       Ok {| task_id := id; task_title := VStr (js "Mock Task");
             task_status := VStr (js "Concluída"); task_priority := VUndefined |};
     notion_createNote := fun _ d =>
       Ok {| note_title := prop d (js "title");
             note_tags := match prop d (js "tags") with VArr l => l | _ => [] end |};
     notion_searchNotes := fun _ _ => Ok mock_notes;
     notion_createProject := fun _ d => Ok {| project_name := prop d (js "name") |};
     notion_getDashboardSummary := fun _ =>
       Ok {| tasks_todo := VNum 5; tasks_inProgress := VNum 3; tasks_completed := VNum 10;
             notes_total := VNum 15; projects_active := VNum 2;
             tasksCompletedToday := VNum 3 |};
     notion_getProductivityStats := fun _ _ =>
       Ok {| tasksCompleted := VNum 25; notesCreated := VNum 8;
             averageCompletionTime := VStr (js "2.5 horas");
             completionRate := VNum 85; currentStreak := VNum 7 |} |}.

(** [new NLPProcessor()]: no session yet. *)
Definition fresh : Machine := {| context := ∅; trace := []; ticks := 0 |}.

(** ** Runs used in the statements *)

Definition history_of (m : Machine) (sid : jsstring) : list HistoryEntry :=
  match context m !! sid with
  | Some c => history c
  | None => []
  end.

Inductive request :=
| Process (input : jsstring) (sessionId : option jsstring)
| Handle (input : jsstring) (sessionId : option jsstring)
| Clear (sid : jsstring).

Section Runs.

Variable env : Env.

(** A sequence of [updateContext] calls, each with its session. *)
Fixpoint appendAll (appends : list (jsstring * (jsstring * value))) : M unit :=
  match appends with
  | [] => ret tt
  | (sid, (input, output)) :: rest =>
      updateContext env sid input output;;
      appendAll rest
  end.

(** The entries that a sequence of appends gives to session [sid], oldest
    first, when the first append reads the clock for the [k]-th time. *)
Fixpoint appended (sid : jsstring) (k : nat)
    (appends : list (jsstring * (jsstring * value))) : list HistoryEntry :=
  match appends with
  | [] => []
  | (sid', (input, output)) :: rest =>
      (if bool_decide (sid' = sid)
       then [{| h_input := input; h_output := output; h_timestamp := clock env k |}]
       else [])
      ++ appended sid (S k) rest
  end.

(** Requests served one after the other by one [NLPSystem]. *)
Definition serve1 (m : Machine) (r : request) : Machine :=
  match r with
  | Process input sid => (processInput env input sid m).2
  | Handle input sid => (processAndExecute env input sid m).2
  | Clear sid => (clearSession sid m).2
  end.

Definition serve (requests : list request) (m : Machine) : Machine :=
  fold_left serve1 requests m.

End Runs.

(** ** Predicates used in the statements *)

Definition with_context (m : Machine) (cm : gmap jsstring ConversationContext) : Machine :=
  {| context := cm; trace := trace m; ticks := ticks m |}.

(** Every stored history has at most ten entries. *)
Definition bounded (cm : gmap jsstring ConversationContext) : Prop :=
  forall sid c, cm !! sid = Some c -> (length (history c) <= 10)%nat.

(** A computation whose every run relates the machine before to the
    machine after. *)
Definition steps {A} (R : Machine -> Machine -> Prop) (c : M A) : Prop :=
  forall m, R m (c m).2.

(** Relations that every run built from [ret], [throw], [bind],
    [try_catch], clock reads and calls of [allowed] events respects. *)
Record stepwise (R : Machine -> Machine -> Prop) (allowed : event -> Prop) : Prop := {
  sw_refl : forall m, R m m;
  sw_trans : forall a b c, R a b -> R b c -> R a c;
  sw_call : forall m ev,
    allowed ev ->
    R m {| context := context m; trace := trace m ++ [ev]; ticks := ticks m |};
  sw_tick : forall m,
    R m {| context := context m; trace := trace m; ticks := S (ticks m) |}
}.

(** A computation all of whose returned values satisfy [Q]. *)
Definition ensures {A} (Q : A -> Prop) (c : M A) : Prop :=
  forall m a m', c m = (Ok a, m') -> Q a.

Definition same_context (m m' : Machine) : Prop := context m' = context m.

Definition emits (allowed : event -> Prop) (m m' : Machine) : Prop :=
  context m' = context m
  /\ exists evs, trace m' = trace m ++ evs /\ Forall allowed evs.

Definition is_store (ev : event) : bool :=
  match ev with
  | OpenAICreate _ _ => false
  | _ => true
  end.




(** A value on which [normalizePriority] and [parseDate] do not throw:
    falsy, or a string. *)
Definition lowerable (v : value) : Prop :=
  truthy v = false \/ exists s, v = VStr s.


(** ** Classifier replies of the examples

    JSON texts are written with ['] for the double quote. *)
Definition json_text (s : string) : jsstring :=
  map (fun c => if c =? 39 then 34 else c) (js s).

Definition reply_greeting : jsstring :=
  json_text "{'intent':'conversation','entities':{},'confidence':0.9,'response':'Olá!'}".

Definition reply_create_task : jsstring :=
  json_text
    "{'intent':'create_task','entities':{'title':'Revisar'},'confidence':0.9,'response':'Vou criar a tarefa.'}".

Definition reply_create_project : jsstring :=
  json_text "{'intent':'create_project','entities':{},'confidence':0.9}".

Definition reply_create_note : jsstring :=
  json_text "{'intent':'create_note','entities':{'title':''},'confidence':0.9}".

Definition reply_update_task : jsstring :=
  json_text "{'intent':'update_task','entities':{'title':'Revisar','status':'Em progresso'},'confidence':0.9}".

Definition known_replies : list (jsstring * value) :=
  [(reply_greeting,
    VObj [(js "intent", VStr (js "conversation")); (js "entities", VObj []);
          (js "confidence", VNum (9 # 10)); (js "response", VStr (js "Olá!"))]);
   (reply_create_task,
    VObj [(js "intent", VStr (js "create_task"));
          (js "entities", VObj [(js "title", VStr (js "Revisar"))]);
          (js "confidence", VNum (9 # 10));
          (js "response", VStr (js "Vou criar a tarefa."))]);
   (reply_create_project,
    VObj [(js "intent", VStr (js "create_project")); (js "entities", VObj []);
          (js "confidence", VNum (9 # 10))]);
   (reply_create_note,
    VObj [(js "intent", VStr (js "create_note"));
          (js "entities", VObj [(js "title", VStr [])]);
          (js "confidence", VNum (9 # 10))]);
   (reply_update_task,
    VObj [(js "intent", VStr (js "update_task"));
          (js "entities",
           VObj [(js "title", VStr (js "Revisar"));
                 (js "status", VStr (js "Em progresso"))]);
          (js "confidence", VNum (9 # 10))])].

(** The test services behind a classifier that answers [text]. *)
Definition answering (text : jsstring) : Env :=
  mock_env (Ok (Some text)) known_replies mock_tasks.

(** The same with no task matching a title search. *)
Definition no_task_found : Env :=
  mock_env (Ok (Some reply_greeting)) known_replies [].


(** Results of [processInput] for "criar tarefa Revisar" and for
    "marcar como concluída: Reunião X". *)
Definition create_task_result : NLPResult :=
  {| intent := VStr (js "create_task");
     entities := VObj [(js "title", VStr (js "Revisar"))];
     confidence := VNum (9 # 10);
     command := cmd "create" "task" "create_task";
     parameters :=
       VObj [(js "title", VStr (js "Revisar")); (js "description", VUndefined);
             (js "priority", VUndefined); (js "dueDate", VUndefined);
             (js "tags", VArr [])];
     response := VStr (js "Vou criar a tarefa.") |}.


(** The test services behind a classifier whose call fails. *)
Definition unreachable_classifier : Env :=
  mock_env (Throw (ErrorObj (js "connect ETIMEDOUT"))) known_replies mock_tasks.

(** ** More vocabulary for the statements *)

(** The intents for which [extractCommand] builds a command, and the
    actions that [executeCommand] routes. *)
Definition command_intents : list string :=
  ["create_task"; "update_task"; "complete_task"; "list_tasks"; "create_note";
   "search_notes"; "create_project"; "dashboard"; "analytics"]%string.

Definition is_command_intent (v : value) : bool := existsb (intent_is v) command_intents.

Definition executor_actions : list string :=
  ["create_task"; "update_task"; "complete_task"; "list_tasks"; "create_note";
   "search_notes"; "create_project"; "get_summary"; "get_stats"]%string.

Definition known_action (c : AICommand) : bool := existsb (action_is c) executor_actions.

(** The environment [env] with Notion services whose every call throws [e]. *)
Definition throwing (e : exn) (env : Env) : Env :=
  {| JSON_parse := JSON_parse env;
     toLowerCase := toLowerCase env;
     Date_parse := Date_parse env;
     addDays := addDays env;
     NumberToString := NumberToString env;
     StringToNumber := StringToNumber env;
     DateToString := DateToString env;
     typeErrorMessage := typeErrorMessage env;
     clock := clock env;
     openai_create := openai_create env;
     notion_createTask := fun _ _ => Throw e;
     notion_searchTasks := fun _ _ => Throw e;
     notion_updateTask := fun _ _ _ => Throw e;
     notion_completeTask := fun _ _ => Throw e;
     notion_createNote := fun _ _ => Throw e;
     notion_searchNotes := fun _ _ => Throw e;
     notion_createProject := fun _ _ => Throw e;
     notion_getDashboardSummary := fun _ => Throw e;
     notion_getProductivityStats := fun _ _ => Throw e |}.

(** A machine with two sessions, the first with one interaction. *)
Definition two_sessions : Machine :=
  {| context :=
       <[js "ana" := {| sessionId := js "ana";
                        history := [{| h_input := js "oi"; h_output := VStr (js "Olá!");
                                       h_timestamp := 0 |}] |}]>
         (<[js "bia" := {| sessionId := js "bia"; history := [] |}]> ∅);
     trace := [];
     ticks := 1 |}.

(** The context that [getOrCreateContext] returns for a session. *)
Definition context_for (m : Machine) (sid : jsstring) : ConversationContext :=
  default {| sessionId := sid; history := [] |} (context m !! sid).

(** The classifier answers the request with a text that is not empty and
    that is read as [analysis] (the fallback when it cannot be parsed). *)
Definition classified (env : Env) (m : Machine) (sessionId : option jsstring)
    (input : jsstring) (analysis : value) : Prop :=
  exists content,
    openai_create env (trace m)
      (slice_last 3 (history_of m (default (js "default") sessionId))) input
    = Ok (Some content)
    /\ content <> []
    /\ default conversation_fallback (JSON_parse env content) = analysis.

(** The fixed answer of the executor to the fixed error result. *)
Definition apology : CommandResult :=
  {| success := true; message := response error_result; data := None; error := None |}.

Definition reply_numeric_priority : jsstring :=
  json_text "{'intent':'create_task','entities':{'title':'Revisar','priority':1},'confidence':0.9}".

Definition reply_help : jsstring :=
  json_text "{'intent':'help','entities':{},'confidence':0.9,'response':'Posso criar tarefas e notas.'}".

(** A JSON reader for the two replies above. *)
Definition more_replies : list (jsstring * value) :=
  [(reply_numeric_priority,
    VObj [(js "intent", VStr (js "create_task"));
          (js "entities", VObj [(js "title", VStr (js "Revisar")); (js "priority", VNum 1)]);
          (js "confidence", VNum (9 # 10))]);
   (reply_help,
    VObj [(js "intent", VStr (js "help")); (js "entities", VObj []);
          (js "confidence", VNum (9 # 10));
          (js "response", VStr (js "Posso criar tarefas e notas."))])].

Definition answering_more (text : jsstring) : Env :=
  mock_env (Ok (Some text)) (more_replies ++ known_replies) mock_tasks.

(** What [extractCommand] may hand to the executor. *)
Definition routable (x : option AICommand * value) : Prop :=
  match x.1 with
  | Some c => known_action c = true /\ exists fs, x.2 = VObj fs
  | None => x.2 = VUndefined
  end.

(** A string without white space at either end. *)
Definition starts_clean (s : jsstring) : Prop :=
  match s with
  | c :: _ => is_space c = false
  | [] => True
  end.

Definition trimmed (s : jsstring) : Prop := starts_clean s /\ starts_clean (rev s).

(** [t] occurs in [s] as a run of consecutive characters. *)
Definition occurs_in (t s : jsstring) : Prop := exists before after, s = before ++ t ++ after.

(** ** Text utilities ([NLPUtils] of src/nlp/index.ts, [NotionUtils] of
    the Notion module) *)

(** [s.replace(/[sep]{k,}/g, rep)] for [k] >= 1: every maximal run of at
    least [k] separators is replaced by [rep], the shorter runs stay; [run]
    is the run being read. *)
Fixpoint replace_runs (is_sep : N -> bool) (k : nat) (rep run s : jsstring) : jsstring :=
  match s with
  | [] => if (k <=? length run)%nat then rep else run
  | c :: s' =>
      if is_sep c then replace_runs is_sep k rep (run ++ [c]) s'
      else (if (k <=? length run)%nat then rep else run)
             ++ c :: replace_runs is_sep k rep [] s'
  end.

Definition is_newline (c : N) : bool := c =? 10.

Definition is_line_break (c : N) : bool := (c =? 10) || (c =? 13).

Module NLPUtils.

(** [input.trim().replace(/\s+/g, ' ').replace(/[\n\r]+/g, ' ').toLowerCase()] *)
Definition cleanInput (env : Env) (input : jsstring) : jsstring :=
  toLowerCase env
    (replace_runs is_line_break 1 (js " ") []
       (replace_runs is_space 1 (js " ") [] (trim input))).

End NLPUtils.

Module NotionUtils.

(** [text.trim().replace(/\n{3,}/g, '\n\n').replace(/\s{2,}/g, ' ')] *)
Definition sanitizeText (text : jsstring) : jsstring :=
  replace_runs is_space 2 (js " ") []
    (replace_runs is_newline 3 [10; 10] [] (trim text)).

End NotionUtils.

(** No two white-space characters in a row. *)
Fixpoint no_adjacent_spaces (s : jsstring) : Prop :=
  match s with
  | [] => True
  | c :: s' =>
      match s' with
      | d :: _ => is_space c && is_space d = false
      | [] => True
      end
      /\ no_adjacent_spaces s'
  end.

(** The only white-space character is the plain space. *)
Definition only_plain_spaces (s : jsstring) : Prop :=
  Forall (fun c => is_space c = true -> c = 32) s.

Definition ends_clean (s : jsstring) : Prop :=
  match last s with
  | Some c => is_space c = false
  | None => True
  end.

(** *** Hashtags, priorities and ids ([NotionUtils]) *)

(** The class [[a-zA-Z0-9_\u00C0-\u017F]]. *)
Definition is_tag_char (c : N) : bool :=
  ((97 <=? c) && (c <=? 122)) || ((65 <=? c) && (c <=? 90))
  || ((48 <=? c) && (c <=? 57)) || (c =? 95) || ((192 <=? c) && (c <=? 383)).

Definition after_char (c : N) : option jsstring := if c =? 35 then Some [] else None.

(** The matches of [/#([a-zA-Z0-9_\u00C0-\u017F]+)/g], without their [#]:
    [tag] is the tag being read after a [#], if any. *)
Fixpoint hashtags (tag : option jsstring) (s : jsstring) : list jsstring :=
  match s with
  | [] =>
      match tag with
      | Some (c :: t) => [c :: t]
      | _ => []
      end
  | c :: s' =>
      match tag with
      | Some read =>
          if is_tag_char c then hashtags (Some (read ++ [c])) s'
          else match read with [] => [] | _ :: _ => [read] end ++ hashtags (after_char c) s'
      | None => hashtags (after_char c) s'
      end
  end.

Inductive id_char := Hex | Dash.

Definition id_char_ok (k : id_char) (c : N) : bool :=
  match k with
  | Hex => ((48 <=? c) && (c <=? 57)) || ((97 <=? fold_case c) && (fold_case c <=? 102))
  | Dash => c =? 45
  end.

(** [/^[0-9a-f]{8}-[0-9a-f]{4}-[0-9a-f]{4}-[0-9a-f]{4}-[0-9a-f]{12}$/i] *)
Definition notionIdRegex : list id_char :=
  replicate 8 Hex ++ [Dash] ++ replicate 4 Hex ++ [Dash] ++ replicate 4 Hex ++ [Dash]
    ++ replicate 4 Hex ++ [Dash] ++ replicate 12 Hex.

Fixpoint test (pattern : list id_char) (s : jsstring) : bool :=
  match pattern, s with
  | [], [] => true
  | k :: pattern', c :: s' => id_char_ok k c && test pattern' s'
  | _, _ => false
  end.

(** [.] of a regular expression: any character but a line terminator. *)
Definition is_dot (c : N) : bool :=
  negb ((c =? 10) || (c =? 13) || (c =? 8232) || (c =? 8233)).

Definition not_dash (c : N) : bool := negb (c =? 45).

(** ['$1-$2-$3-$4-$5'] for the 32 characters matched. *)
Definition hyphenate (w : jsstring) : jsstring :=
  take 8 w ++ [45] ++ take 4 (drop 8 w) ++ [45] ++ take 4 (drop 12 w) ++ [45]
    ++ take 4 (drop 16 w) ++ [45] ++ drop 20 w.

(** [s.replace(/(.{8})(.{4})(.{4})(.{4})(.{12})/, '$1-$2-$3-$4-$5')]: the
    leftmost 32 characters in a row that [.] matches are regrouped. *)
Fixpoint regroup (s : jsstring) : jsstring :=
  if (32 <=? length s)%nat && forallb is_dot (take 32 s)
  then hyphenate (take 32 s) ++ drop 32 s
  else match s with
       | [] => []
       | c :: s' => c :: regroup s'
       end.

Definition extractHashtags (text : jsstring) : list jsstring := hashtags None text.

Definition isValidNotionId (id : jsstring) : bool :=
  let compact := List.filter not_dash id in
  test notionIdRegex (if (length compact =? 32)%nat then id else regroup compact).

Definition priorityToNumber (env : Env) (priority : jsstring) : Q :=
  let p := toLowerCase env priority in
  if jsstring_eqb p (js "alta") || jsstring_eqb p (js "high") then 3
  else if jsstring_eqb p (js "média") || jsstring_eqb p (js "medium") then 2
  else if jsstring_eqb p (js "baixa") || jsstring_eqb p (js "low") then 1
  else 2.

Definition numberToPriority (priority : Q) : jsstring :=
  if Qeq_bool priority 3 then js "Alta"
  else if Qeq_bool priority 2 then js "Média"
  else if Qeq_bool priority 1 then js "Baixa"
  else js "Média".

(** A tag of [text]: not empty, made of tag characters, found after a [#]. *)
Definition good_tag (text tag : jsstring) : Prop :=
  tag <> []
  /\ Forall (fun c => is_tag_char c = true) tag
  /\ occurs_in (35 :: tag) text.

(** ** [NotionServices]: the dashboard summary

    The tasks and projects are those that the client's [getTasks] and
    [getProjects] answer; a [Date] may be invalid, and then compares false
    with everything. *)

Inductive jsdate :=
| Instant (t : Z)
| InvalidDate.

Record StoredTask := {
  stored_status : value;
  stored_dueDate : option jsdate
}.

Record StoredProject := {
  stored_project_status : value
}.

Record ServiceSummary := {
  totalTasks : nat;
  pendingTasks : nat;
  inProgressTasks : nat;
  completedTasks : nat;
  overdueTasks : nat;
  todayTasks : nat;
  totalProjects : nat;
  activeProjects : nat;
  totalNotes : nat
}.

(** [v === 'text'] *)
Definition is_text (v : value) (text : string) : bool := intent_is v text.

Definition date_before (d : jsdate) (t : Z) : bool :=
  match d with
  | Instant x => (x <? t)%Z
  | InvalidDate => false
  end.

Definition date_not_before (d : jsdate) (t : Z) : bool :=
  match d with
  | Instant x => (t <=? x)%Z
  | InvalidDate => false
  end.

(** [task.dueDate && task.dueDate < today && task.status !== 'Concluído'] *)
Definition is_overdue (today : Z) (task : StoredTask) : bool :=
  match stored_dueDate task with
  | Some due => date_before due today && negb (is_text (stored_status task) "Concluído")
  | None => false
  end.

(** [task.dueDate && task.dueDate >= today && task.dueDate < tomorrow] *)
Definition is_due_today (today tomorrow : Z) (task : StoredTask) : bool :=
  match stored_dueDate task with
  | Some due => date_not_before due today && date_before due tomorrow
  | None => false
  end.

Definition is_active_project (p : StoredProject) : bool :=
  is_text (stored_project_status p) "Em Andamento"
  || is_text (stored_project_status p) "Planejamento".

(** [getOverdueTasks] and [getTodayTasks] on the tasks answered, [today]
    being midnight of the current day and [tomorrow] the day after. *)
Definition getOverdueTasks (today : Z) (allTasks : list StoredTask) : list StoredTask :=
  List.filter (is_overdue today) allTasks.

Definition getTodayTasks (today tomorrow : Z) (allTasks : list StoredTask)
  : list StoredTask :=
  List.filter (is_due_today today tomorrow) allTasks.

(** [getDashboardSummary], once the three answers have arrived. *)
Definition getDashboardSummary (today tomorrow : Z) (allTasks : list StoredTask)
    (allProjects : list StoredProject) (allNotes : list value) : ServiceSummary :=
  {| totalTasks := length allTasks;
     pendingTasks :=
       length (List.filter (fun t => is_text (stored_status t) "A Fazer") allTasks);
     inProgressTasks :=
       length (List.filter (fun t => is_text (stored_status t) "Em Andamento") allTasks);
     completedTasks :=
       length (List.filter (fun t => is_text (stored_status t) "Concluído") allTasks);
     overdueTasks := length (List.filter (is_overdue today) allTasks);
     todayTasks := length (List.filter (is_due_today today tomorrow) allTasks);
     totalProjects := length allProjects;
     activeProjects := length (List.filter is_active_project allProjects);
     totalNotes := length allNotes |}.

(** * Properties *)

(** ** Lists and strings *)

Lemma slice_last_length {A} (n : nat) (l : list A) :
  length (slice_last n l) = (length l `min` n)%nat.
Proof. unfold slice_last. rewrite length_drop. lia. Qed.

Lemma slice_last_short {A} (n : nat) (l : list A) :
  (length l <= n)%nat -> slice_last n l = l.
Proof.
  intros Hle. unfold slice_last.
  replace (length l - n)%nat with 0%nat by lia. apply drop_0.
Qed.

Lemma slice_last_app {A} (n : nat) (a b : list A) :
  slice_last n (slice_last n a ++ b) = slice_last n (a ++ b).
Proof.
  unfold slice_last.
  rewrite !length_app, length_drop, !drop_app, drop_drop, length_drop.
  f_equal; f_equal; lia.
Qed.

Lemma slice_last_guard {A} (n : nat) (l : list A) :
  (if (n <? length l)%nat then slice_last n l else l) = slice_last n l.
Proof.
  destruct (Nat.ltb_spec n (length l)) as [Hlt | Hge]; [done |].
  symmetry. by apply slice_last_short.
Qed.

Lemma jsstring_eqb_eq (a b : jsstring) : jsstring_eqb a b = true <-> a = b.
Proof.
  revert b. induction a as [| x a IH]; intros [| y b]; simpl; try done.
  rewrite andb_true_iff, N.eqb_eq, IH. split.
  - by intros [-> ->].
  - intros [= -> ->]. done.
Qed.

Lemma jsstring_eqb_refl (a : jsstring) : jsstring_eqb a a = true.
Proof. by apply jsstring_eqb_eq. Qed.

(** ** The session store *)

Lemma getOrCreateContext_run (sid : jsstring) (m : Machine) :
  exists c,
    getOrCreateContext sid m
    = (Ok c, {| context := <[sid := c]> (context m); trace := trace m; ticks := ticks m |})
    /\ history c = history_of m sid.
Proof.
  unfold getOrCreateContext, history_of, bind, getContextMap, setContextMap, ret. simpl.
  destruct (context m !! sid) as [c |] eqn:Hc.
  - exists c. split; [| done]. rewrite insert_id by done. by destruct m.
  - eexists. split; [reflexivity | done].
Qed.

Lemma updateContext_run (env : Env) (sid input : jsstring) (output : value) (m : Machine) :
  exists c,
    updateContext env sid input output m
    = (Ok tt, {| context := <[sid := c]> (context m); trace := trace m; ticks := S (ticks m) |})
    /\ history c
       = slice_last 10
           (history_of m sid
              ++ [{| h_input := input; h_output := output;
                     h_timestamp := clock env (ticks m) |}]).
Proof.
  destruct (getOrCreateContext_run sid m) as (c & Hrun & Hc).
  unfold updateContext, bind. rewrite Hrun. simpl.
  eexists. split.
  - by rewrite insert_insert_eq.
  - simpl. by rewrite slice_last_guard, Hc.
Qed.

Lemma history_of_insert (m : Machine) (sid sid' : jsstring) (c : ConversationContext)
    (tr : list event) (tk : nat) :
  history_of {| context := <[sid := c]> (context m); trace := tr; ticks := tk |} sid'
  = if bool_decide (sid = sid') then history c else history_of m sid'.
Proof.
  unfold history_of. simpl. case_bool_decide as Heq.
  - subst. by rewrite lookup_insert_eq.
  - by rewrite lookup_insert_ne.
Qed.

Lemma history_of_fresh (sid : jsstring) : history_of fresh sid = [].
Proof. unfold history_of, fresh. simpl. by rewrite lookup_empty. Qed.

Lemma appendAll_history (env : Env) (sid : jsstring)
    (appends : list (jsstring * (jsstring * value))) (m : Machine) :
  (length (history_of m sid) <= 10)%nat ->
  history_of (appendAll env appends m).2 sid
  = slice_last 10 (history_of m sid ++ appended env sid (ticks m) appends).
Proof.
  revert m. induction appends as [| [sid' [input output]] rest IH]; intros m Hlen.
  - simpl. rewrite app_nil_r. symmetry. by apply slice_last_short.
  - destruct (updateContext_run env sid' input output m) as (c & Hrun & Hc).
    simpl. unfold bind at 1. rewrite Hrun.
    set (m1 := {| context := _ |}).
    assert (Hm1 : history_of m1 sid
                  = if bool_decide (sid' = sid) then history c else history_of m sid)
      by apply history_of_insert.
    rewrite IH.
    + rewrite Hm1. subst m1. simpl. case_bool_decide as Heq; [| done].
      subst sid'. rewrite Hc, slice_last_app, <- app_assoc. done.
    + rewrite Hm1. case_bool_decide; [| done].
      rewrite Hc, slice_last_length. lia.
Qed.

(** C5. History bound.  Starting from a new processor, after any sequence
    of appended interactions (to any sessions, in any order) the history of
    every session is the list of the entries appended to it cut to its last
    ten, in the order of the appends, hence has at most ten entries; and
    after fifteen appends to one session its history has length 10 and is
    made of the sixth to the fifteenth entry, in order. *)
Theorem history_bound (env : Env) (sid : jsstring)
    (appends : list (jsstring * (jsstring * value)))
    (interaction : nat -> jsstring * value) :
  let after := history_of (appendAll env appends fresh).2 sid in
  let fifteen := map (fun i => (sid, interaction i)) (seq 0 15) in
  let after15 := history_of (appendAll env fifteen fresh).2 sid in
  after = slice_last 10 (appended env sid 0 appends)
  /\ (length after <= 10)%nat
  /\ length after15 = 10%nat
  /\ after15
     = map (fun i => {| h_input := (interaction i).1; h_output := (interaction i).2;
                        h_timestamp := clock env i |})
           (seq 5 10).
Proof.
  intros after fifteen after15.
  assert (Hgen : forall l, history_of (appendAll env l fresh).2 sid
                           = slice_last 10 (appended env sid 0 l)).
  { intros l. rewrite appendAll_history; rewrite history_of_fresh; [done | simpl; lia]. }
  split; [apply Hgen |].
  split; [subst after; rewrite Hgen, slice_last_length; lia |].
  assert (H15 : after15
                = map (fun i => {| h_input := (interaction i).1;
                                   h_output := (interaction i).2;
                                   h_timestamp := clock env i |}) (seq 5 10)).
  { subst after15 fifteen. rewrite Hgen. simpl.
    rewrite !bool_decide_eq_true_2 by done. simpl.
    repeat (destruct (interaction _) as [? ?]). done. }
  split; [by rewrite H15 | exact H15].
Qed.

(** ** Relations respected by the runs *)

Section Stepwise.

Variable R : Machine -> Machine -> Prop.
Variable allowed : event -> Prop.
Hypothesis HR : stepwise R allowed.

Lemma steps_ret {A} (a : A) : steps R (ret a).
Proof. intros m. apply (sw_refl _ _ HR). Qed.

Lemma steps_throw {A} (e : exn) : steps R (@throw A e).
Proof. intros m. apply (sw_refl _ _ HR). Qed.

Lemma steps_bind {A B} (c : M A) (k : A -> M B) :
  steps R c -> (forall a, steps R (k a)) -> steps R (bind c k).
Proof.
  intros Hc Hk m. unfold bind. specialize (Hc m).
  destruct (c m) as [[a | e] m']; simpl in *; [| done].
  eapply (sw_trans _ _ HR); [exact Hc | apply Hk].
Qed.

Lemma steps_try_catch {A} (c : M A) (h : exn -> M A) :
  steps R c -> (forall e, steps R (h e)) -> steps R (try_catch c h).
Proof.
  intros Hc Hh m. unfold try_catch. specialize (Hc m).
  destruct (c m) as [[a | e] m']; simpl in *; [done |].
  eapply (sw_trans _ _ HR); [exact Hc | apply Hh].
Qed.

Lemma steps_call {A} (ev : event) (answer : list event -> result A) :
  allowed ev -> steps R (call ev answer).
Proof. intros Hev m. by apply (sw_call _ _ HR). Qed.

Lemma steps_now (env : Env) : steps R (now env).
Proof. intros m. apply (sw_tick _ _ HR). Qed.

Lemma steps_get (env : Env) (v : value) (k : jsstring) : steps R (get env v k).
Proof. unfold get. destruct (nullish v); [apply steps_throw | apply steps_ret]. Qed.

Lemma steps_call_toLowerCase (env : Env) (v : value) : steps R (call_toLowerCase env v).
Proof. destruct v; first [apply steps_ret | apply steps_throw]. Qed.

Ltac step :=
  match goal with
  | |- steps R (bind _ _) => apply steps_bind; [| intros ?]
  | |- steps R (try_catch _ _) => apply steps_try_catch; [| intros ?]
  | |- steps R (ret _) => apply steps_ret
  | |- steps R (throw _) => apply steps_throw
  | |- steps R (now _) => apply steps_now
  | |- steps R (get _ _ _) => apply steps_get
  | |- steps R (call_toLowerCase _ _) => apply steps_call_toLowerCase
  | |- steps R (call _ _) => apply steps_call; auto
  | |- steps R (if ?b then _ else _) => destruct b
  | |- steps R (match ?x with _ => _ end) => destruct x
  | |- steps R _ => progress cbv zeta
  end.

Lemma steps_normalizePriority (env : Env) (v : value) : steps R (normalizePriority env v).
Proof. unfold normalizePriority. repeat step. Qed.

Lemma steps_parseDate (env : Env) (v : value) : steps R (parseDate env v).
Proof. unfold parseDate. repeat step. Qed.

Lemma steps_extractCommand (env : Env) (input : jsstring) (analysis : value) :
  steps R (extractCommand env input analysis).
Proof.
  unfold extractCommand.
  repeat first [apply steps_normalizePriority | apply steps_parseDate | step].
Qed.

Lemma steps_analyzeIntent (env : Env) (input : jsstring) (c : ConversationContext) :
  (forall recent text, allowed (OpenAICreate recent text)) ->
  steps R (analyzeIntent env input c).
Proof. intros Hai. unfold analyzeIntent. repeat step. Qed.

Lemma steps_executeCommand (env : Env) (r : NLPResult) :
  (forall ev, is_store ev = true -> allowed ev) ->
  steps R (executeCommand env r).
Proof.
  intros Hstore.
  unfold executeCommand, createTask, updateTask, completeTask, listTasks, createNote,
    searchNotes, createProject, getDashboard, getAnalytics.
  repeat step.
Qed.

End Stepwise.

Lemma stepwise_same_context : stepwise same_context (fun _ => True).
Proof. split; unfold same_context; simpl; try done. intros a b c Hab Hbc. congruence. Qed.

Lemma stepwise_emits (allowed : event -> Prop) : stepwise (emits allowed) allowed.
Proof.
  split; unfold emits; simpl.
  - intros m. split; [done |]. exists []. by rewrite app_nil_r.
  - intros a b c [Hc1 (e1 & H1 & F1)] [Hc2 (e2 & H2 & F2)].
    split; [congruence |]. exists (e1 ++ e2).
    rewrite H2, H1, app_assoc. split; [done | by apply Forall_app].
  - intros m ev Hev. split; [done |]. exists [ev]. split; [done | by constructor].
  - intros m. split; [done |]. exists []. by rewrite app_nil_r.
Qed.

Lemma extractCommand_silent (env : Env) (input : jsstring) (analysis : value) (m : Machine) :
  context (extractCommand env input analysis m).2 = context m
  /\ trace (extractCommand env input analysis m).2 = trace m.
Proof.
  destruct (steps_extractCommand _ _ (stepwise_emits (fun _ => False)) env input analysis m)
    as [Hc (evs & Ht & Hall)].
  split; [done |]. destruct evs as [| ev evs]; [by rewrite Ht, app_nil_r |].
  by inversion Hall.
Qed.

Lemma executeCommand_emits (env : Env) (r : NLPResult) (m : Machine) :
  context (executeCommand env r m).2 = context m
  /\ exists evs,
       trace (executeCommand env r m).2 = trace m ++ evs
       /\ Forall (fun ev => is_store ev = true) evs.
Proof.
  apply (steps_executeCommand _ _ (stepwise_emits (fun ev => is_store ev = true))).
  done.
Qed.


(** ** One request through [processInput] *)

Lemma analyzeIntent_run (env : Env) (input : jsstring) (c : ConversationContext)
    (m : Machine) :
  let recent := slice_last 3 (history c) in
  analyzeIntent env input c m
  = (match openai_create env (trace m) recent input with
     | Ok (Some (u :: rest)) =>
         Ok (default conversation_fallback (JSON_parse env (u :: rest)))
     | Ok _ => Throw (ErrorObj (js "Resposta vazia da OpenAI"))
     | Throw e => Throw e
     end,
     {| context := context m; trace := trace m ++ [OpenAICreate recent input];
        ticks := ticks m |}).
Proof.
  intros recent. unfold analyzeIntent, bind, call. fold recent.
  destruct (openai_create env (trace m) recent input) as [[[| u rest] |] | e]; try done.
  by destruct (JSON_parse env (u :: rest)).
Qed.

(** Either some stage throws and the fixed error result is returned, the
    session being created but nothing appended; or the classifier's
    analysis goes through extraction, one entry is appended to the session
    and the result repeats the analysis.  In both cases the classifier is
    the one collaborator called, once. *)
Lemma processInput_cases (env : Env) (input : jsstring) (sessionId : option jsstring)
    (m : Machine) :
  let sid := default (js "default") sessionId in
  let recent := slice_last 3 (history_of m sid) in
  exists c0,
    history c0 = history_of m sid /\
    ((exists m',
         processInput env input sessionId m = (Ok error_result, m')
         /\ context m' = <[sid := c0]> (context m)
         /\ trace m' = trace m ++ [OpenAICreate recent input])
     \/
     (exists analysis extracted m1 m2 c1,
         analyzeIntent env input c0 (with_context m (<[sid := c0]> (context m)))
         = (Ok analysis, m1)
         /\ extractCommand env input analysis m1 = (Ok extracted, m2)
         /\ processInput env input sessionId m
            = (Ok {| intent := prop analysis (js "intent");
                     entities := prop analysis (js "entities");
                     confidence := prop analysis (js "confidence");
                     command := extracted.1;
                     parameters := extracted.2;
                     response := prop analysis (js "response") |},
               {| context := <[sid := c1]> (context m);
                  trace := trace m ++ [OpenAICreate recent input];
                  ticks := S (ticks m2) |})
         /\ history c1
            = slice_last 10
                (history_of m sid
                   ++ [{| h_input := input;
                          h_output := or_else (prop analysis (js "response")) (VStr []);
                          h_timestamp := clock env (ticks m2) |}]))).
Proof.
  intros sid recent.
  destruct (getOrCreateContext_run sid m) as (c0 & Hget & Hc0).
  exists c0. split; [done |].
  unfold with_context.
  set (m0 := {| context := <[sid := c0]> (context m); trace := trace m; ticks := ticks m |})
    in *.
  pose proof (analyzeIntent_run env input c0 m0) as Harun.
  rewrite Hc0 in Harun. fold recent in Harun. cbv zeta in Harun.
  destruct (analyzeIntent env input c0 m0) as [[analysis | e] m1] eqn:Han.
  2:{ left. exists m1. split.
      - unfold processInput, try_catch, processInput_try, bind. fold sid.
        by rewrite Hget, Han.
      - injection Harun as _ ->. done. }
  assert (Hm1 : context m1 = <[sid := c0]> (context m)
                /\ trace m1 = trace m ++ [OpenAICreate recent input]).
  { injection Harun as _ ->. done. }
  destruct Hm1 as [Hfa Hta].
  destruct (extractCommand_silent env input analysis m1) as [Hfe Hte].
  destruct (extractCommand env input analysis m1) as [[extracted | e] m2] eqn:Hex;
    simpl in Hfe, Hte.
  2:{ left. exists m2. split; [| by rewrite Hfe, Hfa, Hte, Hta].
      unfold processInput, try_catch, processInput_try, bind. fold sid.
      by rewrite Hget, Han, Hex. }
  destruct (updateContext_run env sid input
              (or_else (prop analysis (js "response")) (VStr [])) m2) as (c1 & Hup & Hc1).
  right. exists analysis, extracted, m1, m2, c1.
  split; [done |]. split; [done |].
  assert (Hh2 : history_of m2 sid = history_of m sid).
  { unfold history_of. rewrite Hfe, Hfa. rewrite lookup_insert_eq. done. }
  split.
  - unfold processInput, try_catch, processInput_try, bind. fold sid.
    rewrite Hget, Han, Hex, Hup. simpl.
    by rewrite Hfe, Hfa, Hte, Hta, insert_insert_eq.
  - by rewrite Hc1, Hh2.
Qed.

(** ** The bound on every stored history *)

Lemma bounded_empty : bounded ∅.
Proof. intros sid c. by rewrite lookup_empty. Qed.

Lemma bounded_insert (cm : gmap jsstring ConversationContext) (sid : jsstring)
    (c : ConversationContext) :
  bounded cm -> (length (history c) <= 10)%nat -> bounded (<[sid := c]> cm).
Proof.
  intros Hcm Hc sid' c'. destruct (decide (sid = sid')) as [-> | Hne].
  - rewrite lookup_insert_eq. by intros [= <-].
  - rewrite lookup_insert_ne by done. apply Hcm.
Qed.

Lemma bounded_delete (cm : gmap jsstring ConversationContext) (sid : jsstring) :
  bounded cm -> bounded (delete sid cm).
Proof.
  intros Hcm sid' c' Hl. apply (Hcm sid').
  destruct (decide (sid = sid')) as [-> | Hne].
  - by rewrite lookup_delete_eq in Hl.
  - by rewrite lookup_delete_ne in Hl.
Qed.

Lemma bounded_history_of (m : Machine) (sid : jsstring) :
  bounded (context m) -> (length (history_of m sid) <= 10)%nat.
Proof.
  intros Hb. unfold history_of.
  destruct (context m !! sid) as [c |] eqn:Hc; [by apply (Hb sid) | simpl; lia].
Qed.

Lemma processInput_bounded (env : Env) (input : jsstring) (sessionId : option jsstring)
    (m : Machine) :
  bounded (context m) -> bounded (context (processInput env input sessionId m).2).
Proof.
  intros Hb.
  destruct (processInput_cases env input sessionId m) as (c0 & Hc0 & Hcases).
  destruct Hcases as [(m' & Hrun & Hctx & _) | (a & x & m1 & m2 & c1 & _ & _ & Hrun & Hc1)];
    rewrite Hrun; simpl.
  - rewrite Hctx. apply bounded_insert; [done |].
    rewrite Hc0. by apply bounded_history_of.
  - apply bounded_insert; [done |]. rewrite Hc1, slice_last_length. lia.
Qed.

Lemma serve_bounded (env : Env) (requests : list request) (m : Machine) :
  bounded (context m) -> bounded (context (serve env requests m)).
Proof.
  revert m. induction requests as [| r rest IH]; intros m Hb; [done |].
  simpl. apply IH. destruct r as [input sid | input sid | sid]; simpl.
  - by apply processInput_bounded.
  - unfold processAndExecute, bind.
    pose proof (processInput_bounded env input sid m Hb) as Hp.
    destruct (processInput env input sid m) as [[r | e] m1]; simpl in *; [| done].
    destruct (executeCommand_emits env r m1) as [Hf _].
    destruct (executeCommand env r m1) as [[cr | e] m2]; simpl in *; by rewrite Hf.
  - by apply bounded_delete.
Qed.

Lemma getStats_sum (m : Machine) :
  totalInteractions (getStats m)
  = sum_list (map (fun kc => length (history kc.2)) (map_to_list (context m))).
Proof.
  unfold getStats. simpl. rewrite map_fold_foldr.
  induction (map_to_list (context m)) as [| [k c] l IH]; simpl; [done |].
  rewrite IH. lia.
Qed.

(** C10. [getStats] returns the number of stored sessions and the sum of
    the lengths of their histories; and after any sequence of requests
    (inputs processed, inputs processed and executed, sessions cleared)
    served from a new system, [totalInteractions] is at most ten times
    [activeSessions]. *)
Theorem getStats_bound (env : Env) (requests : list request) (m : Machine) :
  let served := serve env requests fresh in
  activeSessions (getStats m) = length (map_to_list (context m))
  /\ totalInteractions (getStats m)
     = sum_list (map (fun kc => length (history kc.2)) (map_to_list (context m)))
  /\ (totalInteractions (getStats served) <= 10 * activeSessions (getStats served))%nat.
Proof.
  intros served. split; [| split].
  - simpl. by rewrite length_map_to_list.
  - apply getStats_sum.
  - assert (Hb : bounded (context served)) by apply serve_bounded, bounded_empty.
    rewrite getStats_sum. simpl.
    rewrite <- length_map_to_list.
    assert (Hall : forall kc, kc ∈ map_to_list (context served)
                              -> (length (history kc.2) <= 10)%nat).
    { intros [k c] Hin. apply elem_of_map_to_list in Hin. by apply (Hb k). }
    induction (map_to_list (context served)) as [| kc l IH]; simpl; [lia |].
    assert (length (history kc.2) <= 10)%nat by (apply Hall; left).
    assert (sum_list (map (fun kc => length (history kc.2)) l) <= 10 * length l)%nat
      by (apply IH; intros ? ?; apply Hall; by right).
    lia.
Qed.

(** ** What [processInput] returns and records *)





(** C1, as the code has it.  [validateInputLength] gives the guidance
    message on an input of length 0 and the message asking for a shorter
    text on an input longer than 1000, and calls nobody.
    [processAndExecute] does not use it: whatever the input, its first
    call is to the classifier, with that input, and the calls that follow
    are to the Notion services. *)
Theorem classifier_always_called (env : Env) (input : jsstring)
    (sessionId : option jsstring) (m : Machine) :
  let sid := default (js "default") sessionId in
  (length input = 0%nat ->
   validateInputLength input
   = {| valid := false;
        v_message := Some (js "Por favor, digite algo para eu poder ajudar.") |})
  /\ ((1000 < length input)%nat ->
      validateInputLength input
      = {| valid := false;
           v_message := Some (js "Sua mensagem é muito longa. Tente ser mais conciso.") |})
  /\ exists evs,
       trace (processAndExecute env input sessionId m).2
       = trace m ++ OpenAICreate (slice_last 3 (history_of m sid)) input :: evs
       /\ Forall (fun ev => is_store ev = true) evs.
Proof.
  intros sid. split; [| split].
  - intros Hlen. unfold validateInputLength. by rewrite Hlen.
  - intros Hlen. unfold validateInputLength.
    destruct (Nat.eqb_spec (length input) 0) as [Hz | _]; [lia |].
    destruct (Nat.ltb_spec 1000 (length input)); [done | lia].
  - assert (Hp : exists r m1,
               processInput env input sessionId m = (Ok r, m1)
               /\ trace m1
                  = trace m ++ [OpenAICreate (slice_last 3 (history_of m sid)) input]).
    { destruct (processInput_cases env input sessionId m) as (c0 & Hc0 & Hcases).
      destruct Hcases as [(m' & Hrun & _ & Ht) | (a & x & m1 & m2 & c1 & _ & _ & Hrun & _)];
        eauto. }
    destruct Hp as (r & m1 & Hrun & Ht).
    destruct (executeCommand_emits env r m1) as [_ (evs & Hevs & Hall)].
    exists evs. split; [| done].
    unfold processAndExecute, bind. rewrite Hrun.
    destruct (executeCommand env r m1) as [[cr | e] m2]; simpl in *;
      by rewrite Hevs, Ht, <- app_assoc.
Qed.

(** C1 fails as stated: on the empty input and on an input of 1001
    characters [processAndExecute] calls the classifier and answers with
    the classifier's reply. *)
Lemma empty_input_reaches_classifier :
  let long := replicate 1001 97 in
  (exists r cr m',
      processAndExecute (answering reply_greeting) [] None fresh = (Ok (r, cr), m')
      /\ message cr = VStr (js "Olá!")
      /\ message cr <> VStr (js "Por favor, digite algo para eu poder ajudar.")
      /\ trace m' = [OpenAICreate [] []])
  /\ (exists r cr m',
         processAndExecute (answering reply_greeting) long None fresh = (Ok (r, cr), m')
         /\ message cr = VStr (js "Olá!")
         /\ message cr <> VStr (js "Sua mensagem é muito longa. Tente ser mais conciso.")
         /\ trace m' = [OpenAICreate [] long]).
Proof.
  split; eexists _, _, _; (split; [vm_compute; reflexivity |]);
    (split; [reflexivity |]); (split; [vm_compute; discriminate | reflexivity]).
Qed.

(** C8.  When the classifier's reply is not empty and cannot be parsed,
    [analyzeIntent] returns (and does not throw) the fallback analysis:
    intent ['conversation'], confidence 0.5, no entities and a reply
    asking for more clarity. *)
Theorem analyzeIntent_fail_soft (env : Env) (input : jsstring) (c : ConversationContext)
    (m : Machine) (content : jsstring) :
  openai_create env (trace m) (slice_last 3 (history c)) input = Ok (Some content) ->
  content <> [] ->
  JSON_parse env content = None ->
  exists analysis m',
    analyzeIntent env input c m = (Ok analysis, m')
    /\ prop analysis (js "intent") = VStr (js "conversation")
    /\ prop analysis (js "confidence") = VNum (1 # 2)
    /\ prop analysis (js "entities") = VObj []
    /\ prop analysis (js "response")
       = VStr (js "Entendi sua mensagem, mas preciso de mais clareza para ajudar melhor.").
Proof.
  intros Hreply Hne Hparse.
  exists conversation_fallback. eexists. split; [| by vm_compute].
  rewrite analyzeIntent_run. simpl. rewrite Hreply.
  destruct content as [| u rest]; [done |]. by rewrite Hparse.
Qed.

Lemma analyzeIntent_fail_soft_witness :
  exists analysis m',
    analyzeIntent (answering (js "Claro, posso ajudar!")) (js "oi")
      {| sessionId := js "default"; history := [] |} fresh
    = (Ok analysis, m')
    /\ prop analysis (js "intent") = VStr (js "conversation")
    /\ prop analysis (js "confidence") = VNum (1 # 2)
    /\ prop analysis (js "entities") = VObj []
    /\ prop analysis (js "response")
       = VStr (js "Entendi sua mensagem, mas preciso de mais clareza para ajudar melhor.").
Proof.
  apply (analyzeIntent_fail_soft _ _ _ _ (js "Claro, posso ajudar!"));
    [reflexivity | discriminate | reflexivity].
Defined.

(** ** What the executor returns *)

Section Ensures.

Context {A : Type}.
Variable Q : A -> Prop.

Lemma ensures_ret (a : A) : Q a -> ensures Q (ret a).
Proof. intros Ha m a' m' [= <- _]. done. Qed.


Lemma ensures_bind {B} (c : M B) (k : B -> M A) :
  (forall b, ensures Q (k b)) -> ensures Q (bind c k).
Proof.
  intros Hk m a m'. unfold bind.
  destruct (c m) as [[b | e] m1]; [apply Hk | done].
Qed.


End Ensures.










(** ** Dispatch of task commands *)

Lemma action_is_eq (c : AICommand) (name : string) :
  c_action c = js name -> action_is c name = true.
Proof. intros Heq. unfold action_is. rewrite Heq. apply jsstring_eqb_refl. Qed.

Lemma get_present (env : Env) (v : value) (k : jsstring) (m : Machine) :
  nullish v = false -> get env v k m = (Ok (prop v k), m).
Proof. intros Hv. unfold get. by rewrite Hv. Qed.

Lemma truthy_not_nullish (v : value) (k : jsstring) :
  truthy (prop v k) = true -> nullish v = false.
Proof. by destruct v. Qed.

(** C9.  For every [create_task] command that the executor dispatches with
    parameters to read, exactly one call is made, [createTask] of the
    Notion services, and the task data it receives has status ['A fazer'],
    the priority of the parameters or ['Média'], their tags or the empty
    list, and their title or ['Nova tarefa']. *)
Theorem createTask_defaults (env : Env) (r : NLPResult) (c : AICommand) (m : Machine) :
  command r = Some c ->
  c_action c = js "create_task" ->
  nullish (parameters r) = false ->
  let params := parameters r in
  exists taskData,
    trace (executeCommand env r m).2 = trace m ++ [CreateTask taskData]
    /\ prop taskData (js "status") = VStr (js "A fazer")
    /\ prop taskData (js "priority")
       = or_else (prop params (js "priority")) (VStr (js "Média"))
    /\ prop taskData (js "tags") = or_else (prop params (js "tags")) (VArr [])
    /\ prop taskData (js "title")
       = or_else (prop params (js "title")) (VStr (js "Nova tarefa"))
    /\ (prop params (js "priority") = VUndefined ->
        prop taskData (js "priority") = VStr (js "Média"))
    /\ (prop params (js "tags") = VUndefined -> prop taskData (js "tags") = VArr [])
    /\ (prop params (js "title") = VUndefined ->
        prop taskData (js "title") = VStr (js "Nova tarefa")).
Proof.
  intros Hc Hact Hparams params.
  eexists. split.
  - unfold executeCommand. rewrite Hc, (action_is_eq _ _ Hact).
    unfold try_catch at 1, createTask, try_catch, bind.
    rewrite (get_present env _ _ _ Hparams). unfold call.
    destruct (notion_createTask env (trace m) _); reflexivity.
  - fold params.
    split; [reflexivity |]. split; [reflexivity |]. split; [reflexivity |].
    split; [reflexivity |].
    split; [| split]; intros Habs.
    + change (or_else (prop params (js "priority")) (VStr (js "Média"))
              = VStr (js "Média")).
      by rewrite Habs.
    + change (or_else (prop params (js "tags")) (VArr []) = VArr []).
      by rewrite Habs.
    + change (or_else (prop params (js "title")) (VStr (js "Nova tarefa"))
              = VStr (js "Nova tarefa")).
      by rewrite Habs.
Qed.

Lemma executeCommand_updateTask (env : Env) (r : NLPResult) (c : AICommand) :
  command r = Some c ->
  c_action c = js "update_task" ->
  executeCommand env r
  = try_catch (updateTask env (parameters r))
      (fun e => ret (failed "Ocorreu um erro ao executar o comando." (error_message e))).
Proof.
  intros Hc Hact. unfold executeCommand, action_is. rewrite Hc, Hact. reflexivity.
Qed.

Lemma executeCommand_completeTask (env : Env) (r : NLPResult) (c : AICommand) :
  command r = Some c ->
  c_action c = js "complete_task" ->
  executeCommand env r
  = try_catch (completeTask env (parameters r))
      (fun e => ret (failed "Ocorreu um erro ao executar o comando." (error_message e))).
Proof.
  intros Hc Hact. unfold executeCommand, action_is. rewrite Hc, Hact. reflexivity.
Qed.


(** An [update_task] command built by [extractCommand] keeps the title
    under [updates]: the executor finds neither id nor title at the top of
    the parameters and makes no search. *)
Example update_task_from_classifier :
  exists r cr m',
    processAndExecute (answering reply_update_task) (js "atualizar tarefa Revisar") None fresh
    = (Ok (r, cr), m')
    /\ prop (prop (parameters r) (js "updates")) (js "title") = VStr (js "Revisar")
    /\ prop (parameters r) (js "title") = VUndefined
    /\ cr = failed "É necessário especificar qual tarefa atualizar."
              (js "ID ou título da tarefa não fornecido")
    /\ trace m' = [OpenAICreate [] (js "atualizar tarefa Revisar")].
Proof.
  eexists _, _, _. split; [vm_compute; reflexivity |].
  repeat split; vm_compute; reflexivity.
Qed.


Lemma createTask_defaults_witness :
  let env := answering reply_create_task in
  let params := parameters create_task_result in
  exists taskData,
    trace (executeCommand env create_task_result fresh).2 = trace fresh ++ [CreateTask taskData]
    /\ prop taskData (js "status") = VStr (js "A fazer")
    /\ prop taskData (js "priority")
       = or_else (prop params (js "priority")) (VStr (js "Média"))
    /\ prop taskData (js "tags") = or_else (prop params (js "tags")) (VArr [])
    /\ prop taskData (js "title")
       = or_else (prop params (js "title")) (VStr (js "Nova tarefa"))
    /\ (prop params (js "priority") = VUndefined ->
        prop taskData (js "priority") = VStr (js "Média"))
    /\ (prop params (js "tags") = VUndefined -> prop taskData (js "tags") = VArr [])
    /\ (prop params (js "title") = VUndefined ->
        prop taskData (js "title") = VStr (js "Nova tarefa")).
Proof.
  exact (createTask_defaults (answering reply_create_task) create_task_result
           {| c_type := js "create"; c_target := js "task"; c_action := js "create_task" |}
           fresh eq_refl eq_refl eq_refl).
Defined.


(** ** Titles extracted for the creations *)

Lemma normalizePriority_returns (env : Env) (v : value) (m : Machine) :
  lowerable v -> exists p, normalizePriority env v m = (Ok p, m).
Proof.
  intros [Hfalsy | [s ->]]; unfold normalizePriority.
  - rewrite Hfalsy. by eexists.
  - destruct (negb (truthy (VStr s))); [by eexists |].
    unfold bind, call_toLowerCase, ret.
    repeat match goal with |- context [if ?b then _ else _] => destruct b end; by eexists.
Qed.

Lemma parseDate_returns (env : Env) (v : value) (m : Machine) :
  lowerable v -> exists d m', parseDate env v m = (Ok d, m').
Proof.
  intros [Hfalsy | [s ->]]; unfold parseDate.
  - rewrite Hfalsy. by eexists _, _.
  - destruct (negb (truthy (VStr s))); [by eexists _, _ |].
    unfold bind, now, call_toLowerCase, ret.
    repeat match goal with
           | |- context [if ?b then _ else _] => destruct b
           | |- context [match Date_parse ?e ?x with _ => _ end] => destruct (Date_parse e x)
           end; by eexists _, _.
Qed.

Lemma prop_not_nullish (v : value) (k : jsstring) :
  nullish (prop v k) = false -> nullish v = false.
Proof. by destruct v. Qed.

Lemma or_else_truthy (a b : value) : truthy b = true -> truthy (or_else a b) = true.
Proof. intros Hb. unfold or_else. by destruct (truthy a) eqn:Ha. Qed.

Lemma extractTitleFromInput_nonempty (input : jsstring) : extractTitleFromInput input <> [].
Proof.
  unfold extractTitleFromInput.
  destruct (jsstring_eqb (cleanInput input) []) eqn:Heq; [by vm_compute |].
  intros Hnil. rewrite Hnil in Heq. done.
Qed.

Lemma truthy_title (input : jsstring) : truthy (VStr (extractTitleFromInput input)) = true.
Proof.
  pose proof (extractTitleFromInput_nonempty input) as Hne.
  simpl. by destruct (extractTitleFromInput input).
Qed.




(** The derivation on some inputs, and the default that a note gets. *)
Example cleanInput_examples :
  cleanInput (js "criar comprar pão tarefa") = js "comprar pão"
  /\ cleanInput (js "Nova   ideias para o blog  NOTA ") = js "ideias para o blog"
  /\ cleanInput (js "criar tarefa revisar relatório") = js "tarefa revisar relatório"
  /\ cleanInput (js "novo projeto") = js "projeto"
  /\ cleanInput (js "criar ") = []
  /\ extractTitleFromInput (js "criar ") = js "Nova tarefa".
Proof. repeat split; vm_compute; reflexivity. Qed.

Example note_default :
  exists r m',
    processInput (answering reply_create_note) (js "criar ") None fresh = (Ok r, m')
    /\ prop (parameters r) (js "title") = VStr (js "Nova tarefa").
Proof. eexists _, _. split; [vm_compute; reflexivity | reflexivity]. Qed.

(** * Further properties of the code *)

(** ** Sessions *)

(** X1.  Clearing a session removes its context; clearing it again changes
    nothing; and the next [getOrCreateContext] for it starts from an empty
    history under the same key. *)
Theorem clearContext_twice (sid : jsstring) (m : Machine) :
  let cleared := (clearContext sid m).2 in
  context cleared !! sid = None
  /\ (clearContext sid cleared).2 = cleared
  /\ exists c,
       (getOrCreateContext sid cleared).1 = Ok c
       /\ sessionId c = sid
       /\ history c = []
       /\ context (getOrCreateContext sid cleared).2 !! sid = Some c.
Proof.
  unfold clearContext, getOrCreateContext, bind, getContextMap, setContextMap, ret. simpl.
  split; [apply lookup_delete_eq |]. split.
  - by rewrite delete_delete_eq.
  - rewrite lookup_delete_eq. simpl. eexists. repeat split; try reflexivity.
    by rewrite lookup_insert_eq.
Qed.

Lemma processAndExecute_context (env : Env) (input : jsstring)
    (sessionId : option jsstring) (m : Machine) :
  context (processAndExecute env input sessionId m).2
  = context (processInput env input sessionId m).2.
Proof.
  unfold processAndExecute, bind.
  destruct (processInput env input sessionId m) as [[r | e] m1]; [| done].
  destruct (executeCommand_emits env r m1) as [Hctx _].
  by destruct (executeCommand env r m1) as [[cr | e] m2].
Qed.

Lemma processInput_context (env : Env) (input : jsstring) (sessionId : option jsstring)
    (m : Machine) :
  exists c,
    context (processInput env input sessionId m).2
    = <[default (js "default") sessionId := c]> (context m).
Proof.
  destruct (processInput_cases env input sessionId m) as (c0 & _ & Hcases).
  destruct Hcases as [(m' & Hrun & Hctx & _) | (a & x & m1 & m2 & c1 & _ & _ & Hrun & _)];
    rewrite Hrun; simpl; eauto.
Qed.

(** X2.  A request touches the context of its own session only: the
    context stored for any other session is the same before and after
    [processAndExecute]. *)
Theorem other_sessions_untouched (env : Env) (input : jsstring)
    (sessionId : option jsstring) (other : jsstring) (m : Machine) :
  other <> default (js "default") sessionId ->
  context (processAndExecute env input sessionId m).2 !! other = context m !! other.
Proof.
  intros Hne. rewrite processAndExecute_context.
  destruct (processInput_context env input sessionId m) as (c & ->).
  by rewrite lookup_insert_ne.
Qed.

Lemma other_sessions_untouched_witness :
  context (processAndExecute (answering reply_create_task) (js "criar tarefa Revisar")
             (Some (js "bia")) two_sessions).2 !! js "ana"
  = context two_sessions !! js "ana".
Proof.
  apply (other_sessions_untouched (answering reply_create_task)). discriminate.
Defined.

(** X3.  [processInput] registers the session before it calls the
    classifier: after the call the session is stored whatever happened,
    and [activeSessions] has grown by one exactly when the session was
    new. *)
Theorem processInput_registers_session (env : Env) (input : jsstring)
    (sessionId : option jsstring) (m : Machine) :
  let sid := default (js "default") sessionId in
  let after := (processInput env input sessionId m).2 in
  is_Some (context after !! sid)
  /\ activeSessions (getStats after)
     = match context m !! sid with
       | Some _ => activeSessions (getStats m)
       | None => S (activeSessions (getStats m))
       end.
Proof.
  intros sid after. subst after.
  destruct (processInput_context env input sessionId m) as (c & Hctx). fold sid in Hctx.
  split; [rewrite Hctx, lookup_insert_eq; by eexists |].
  change (size (context (processInput env input sessionId m).2)
          = match context m !! sid with
            | Some _ => size (context m)
            | None => S (size (context m))
            end).
  rewrite Hctx.
  destruct (context m !! sid) eqn:Hsid.
  - by rewrite map_size_insert_Some.
  - by rewrite map_size_insert_None.
Qed.

(** X4.  Clearing a stored session takes one session and the length of its
    history out of the statistics. *)
Theorem clearContext_stats (sid : jsstring) (c : ConversationContext) (m : Machine) :
  context m !! sid = Some c ->
  let cleared := (clearContext sid m).2 in
  activeSessions (getStats m) = S (activeSessions (getStats cleared))
  /\ totalInteractions (getStats m)
     = (totalInteractions (getStats cleared) + length (history c))%nat.
Proof.
  intros Hc cleared. subst cleared. split.
  - change (size (context m) = S (size (delete sid (context m)))).
    rewrite map_size_delete_Some by done.
    assert (size (context m) <> 0%nat); [| lia].
    intros Hz. apply map_size_empty_inv in Hz. by rewrite Hz, lookup_empty in Hc.
  - unfold getStats, clearContext, bind, getContextMap, setContextMap. simpl.
    rewrite (map_fold_delete_L _ _ sid c (context m)); [done | | done].
    intros. lia.
Qed.

Lemma clearContext_stats_witness :
  let cleared := (clearContext (js "ana") two_sessions).2 in
  activeSessions (getStats two_sessions) = S (activeSessions (getStats cleared))
  /\ totalInteractions (getStats two_sessions)
     = (totalInteractions (getStats cleared) + 1)%nat.
Proof.
  exact (clearContext_stats (js "ana")
           {| sessionId := js "ana";
              history := [{| h_input := js "oi"; h_output := VStr (js "Olá!");
                             h_timestamp := 0 |}] |}
           two_sessions eq_refl).
Defined.

(** ** Stages of [processInput], forwards *)

Lemma getOrCreateContext_exact (sid : jsstring) (m : Machine) :
  getOrCreateContext sid m
  = (Ok (context_for m sid), with_context m (<[sid := context_for m sid]> (context m))).
Proof.
  unfold getOrCreateContext, context_for, with_context, bind, getContextMap,
    setContextMap, ret. simpl.
  destruct (context m !! sid) as [c |] eqn:Hc; simpl; [| done].
  rewrite insert_id by done. by destruct m.
Qed.

Lemma context_for_history (m : Machine) (sid : jsstring) :
  history (context_for m sid) = history_of m sid.
Proof. unfold context_for, history_of. by destruct (context m !! sid). Qed.

Lemma classified_run (env : Env) (m : Machine) (sessionId : option jsstring)
    (input : jsstring) (analysis : value) (sid : jsstring) :
  sid = default (js "default") sessionId ->
  classified env m sessionId input analysis ->
  analyzeIntent env input (context_for m sid)
    (with_context m (<[sid := context_for m sid]> (context m)))
  = (Ok analysis,
     {| context := <[sid := context_for m sid]> (context m);
        trace := trace m ++ [OpenAICreate (slice_last 3 (history_of m sid)) input];
        ticks := ticks m |}).
Proof.
  intros -> (content & Hreply & Hne & Hparse).
  rewrite analyzeIntent_run. simpl. rewrite context_for_history.
  rewrite Hreply. destruct content as [| u rest]; [done |]. by rewrite Hparse.
Qed.

(** When extraction throws, the error result is returned and the history
    is as it was. *)
Lemma processInput_extract_throws (env : Env) (m : Machine) (sessionId : option jsstring)
    (input : jsstring) (analysis : value) :
  classified env m sessionId input analysis ->
  (forall m0, exists e m1, extractCommand env input analysis m0 = (Throw e, m1)) ->
  exists m',
    processInput env input sessionId m = (Ok error_result, m')
    /\ history_of m' (default (js "default") sessionId)
       = history_of m (default (js "default") sessionId)
    /\ trace m'
       = trace m
         ++ [OpenAICreate
               (slice_last 3 (history_of m (default (js "default") sessionId))) input].
Proof.
  intros Hcl Hthrow.
  unfold processInput, try_catch, processInput_try, bind.
  set (sid := default (js "default") sessionId).
  rewrite getOrCreateContext_exact. cbv beta iota.
  rewrite (classified_run env m sessionId input analysis sid eq_refl Hcl). cbv beta iota.
  match goal with |- context [extractCommand env input analysis ?m0] =>
    destruct (Hthrow m0) as (e & m1 & Hex);
    pose proof (extractCommand_silent env input analysis m0) as [Hc Ht];
    rewrite Hex in Hc, Ht |- * end.
  simpl in Hc, Ht. exists m1. split; [done |]. split; [| done].
  unfold history_of. rewrite Hc, lookup_insert_eq. apply context_for_history.
Qed.

(** When extraction returns, one entry is appended and the analysis is
    repeated in the result. *)
Lemma processInput_extract_returns (env : Env) (m : Machine) (sessionId : option jsstring)
    (input : jsstring) (analysis : value) (extracted : option AICommand * value) :
  classified env m sessionId input analysis ->
  (forall m0, exists m1, extractCommand env input analysis m0 = (Ok extracted, m1)) ->
  exists m',
    processInput env input sessionId m
    = (Ok {| intent := prop analysis (js "intent");
             entities := prop analysis (js "entities");
             confidence := prop analysis (js "confidence");
             command := extracted.1;
             parameters := extracted.2;
             response := prop analysis (js "response") |}, m')
    /\ trace m'
       = trace m
         ++ [OpenAICreate
               (slice_last 3 (history_of m (default (js "default") sessionId))) input].
Proof.
  intros Hcl Hret.
  unfold processInput, try_catch, processInput_try, bind.
  set (sid := default (js "default") sessionId).
  rewrite getOrCreateContext_exact. cbv beta iota.
  rewrite (classified_run env m sessionId input analysis sid eq_refl Hcl). cbv beta iota.
  match goal with |- context [extractCommand env input analysis ?m0] =>
    destruct (Hret m0) as (m1 & Hex);
    pose proof (extractCommand_silent env input analysis m0) as [_ Ht];
    rewrite Hex in Ht |- * end.
  simpl in Ht.
  destruct (updateContext_run env sid input
              (or_else (prop analysis (js "response")) (VStr [])) m1) as (c1 & Hup & _).
  rewrite Hup. simpl. eexists. split; [reflexivity |]. done.
Qed.

Lemma executeCommand_apology (env : Env) (m : Machine) :
  executeCommand env error_result m = (Ok apology, m).
Proof. by vm_compute. Qed.

(** ** Priorities *)

Lemma normalizePriority_throws (env : Env) (v : value) (m : Machine) :
  ~ lowerable v -> exists e, normalizePriority env v m = (Throw e, m).
Proof.
  intros Hnot. unfold normalizePriority.
  destruct (truthy v) eqn:Ht; [| exfalso; apply Hnot; by left].
  simpl. unfold bind, call_toLowerCase.
  destruct v; try (by eexists). exfalso. apply Hnot. right. by eexists.
Qed.

(** X5.  [normalizePriority] returns, without throwing, for a falsy value
    or a string: [undefined] exactly when the value is falsy, and ['Alta'],
    ['Média'] or ['Baixa'] otherwise.  For any other value (a number, an
    array, ...) it throws. *)
Theorem normalizePriority_range (env : Env) (v : value) (m : Machine) :
  (lowerable v ->
   exists p,
     normalizePriority env v m = (Ok p, m)
     /\ (truthy v = false -> p = VUndefined)
     /\ (truthy v = true ->
         p = VStr (js "Alta") \/ p = VStr (js "Média") \/ p = VStr (js "Baixa")))
  /\ (~ lowerable v -> exists e, normalizePriority env v m = (Throw e, m)).
Proof.
  split.
  - intros [Hfalsy | [s ->]]; unfold normalizePriority.
    + rewrite Hfalsy. simpl. eexists. split; [reflexivity |]. split; [done | congruence].
    + destruct (truthy (VStr s)) eqn:Ht; simpl.
      * unfold bind, call_toLowerCase, ret.
        repeat match goal with |- context [if ?b then _ else _] => destruct b end;
          eexists; (split; [reflexivity |]); (split; [done | intros _; auto]).
      * eexists. split; [reflexivity |]. split; [done | done].
  - apply normalizePriority_throws.
Qed.

Lemma normalizePriority_range_witness :
  let env := answering reply_greeting in
  (exists p,
      normalizePriority env (VStr (js "ALTA")) fresh = (Ok p, fresh)
      /\ (truthy (VStr (js "ALTA")) = false -> p = VUndefined)
      /\ (truthy (VStr (js "ALTA")) = true ->
          p = VStr (js "Alta") \/ p = VStr (js "Média") \/ p = VStr (js "Baixa")))
  /\ exists e, normalizePriority env (VNum 1) fresh = (Throw e, fresh).
Proof.
  split.
  - apply (proj1 (normalizePriority_range (answering reply_greeting) (VStr (js "ALTA")) fresh)).
    right. by eexists.
  - apply (proj2 (normalizePriority_range (answering reply_greeting) (VNum 1) fresh)).
    intros [H | [s H]]; discriminate H.
Defined.

(** ** Requests that end without a Notion call *)

Lemma existsb_cons_false {A} (f : A -> bool) (x : A) (l : list A) :
  existsb f (x :: l) = false -> f x = false /\ existsb f l = false.
Proof. simpl. by intros [? ?]%orb_false_iff. Qed.

Lemma extractCommand_no_command (env : Env) (input : jsstring) (analysis : value)
    (m : Machine) :
  nullish analysis = false ->
  is_command_intent (prop analysis (js "intent")) = false ->
  extractCommand env input analysis m = (Ok (None, VUndefined), m).
Proof.
  intros Han Hint. unfold extractCommand, bind.
  repeat (rewrite (get_present env _ _ _ Han); cbv beta iota).
  unfold is_command_intent, command_intents in Hint.
  repeat (apply existsb_cons_false in Hint; destruct Hint as [-> Hint]).
  reflexivity.
Qed.

(** X6.  When the classifier's reply carries an intent for which no
    command is built (['help'], ['conversation'], ['update_project'], any
    other text or no text at all), [processAndExecute] calls no Notion
    service and relays the classifier's [response], or
    ['Como posso ajudar você?'] when there is none, as a success. *)
Theorem non_command_intent_relayed (env : Env) (input : jsstring)
    (sessionId : option jsstring) (m : Machine) (analysis : value) :
  classified env m sessionId input analysis ->
  nullish analysis = false ->
  is_command_intent (prop analysis (js "intent")) = false ->
  exists r m',
    processAndExecute env input sessionId m
    = (Ok (r, {| success := true;
                 message := or_else (prop analysis (js "response"))
                              (VStr (js "Como posso ajudar você?"));
                 data := None;
                 error := None |}), m')
    /\ command r = None
    /\ intent r = prop analysis (js "intent")
    /\ trace m'
       = trace m
         ++ [OpenAICreate
               (slice_last 3 (history_of m (default (js "default") sessionId))) input].
Proof.
  intros Hcl Han Hint.
  destruct (processInput_extract_returns env m sessionId input analysis (None, VUndefined) Hcl)
    as (m' & Hrun & Ht).
  { intros m0. exists m0. by apply extractCommand_no_command. }
  eexists _, m'. split.
  - unfold processAndExecute, bind. rewrite Hrun. reflexivity.
  - done.
Qed.

Lemma non_command_intent_relayed_witness :
  exists r m',
    processAndExecute (answering_more reply_help) (js "ajuda") None fresh
    = (Ok (r, {| success := true;
                 message := or_else (VStr (js "Posso criar tarefas e notas."))
                              (VStr (js "Como posso ajudar você?"));
                 data := None;
                 error := None |}), m')
    /\ command r = None
    /\ intent r = VStr (js "help")
    /\ trace m' = trace fresh ++ [OpenAICreate (slice_last 3 (history_of fresh (js "default")))
                                    (js "ajuda")].
Proof.
  apply (non_command_intent_relayed (answering_more reply_help) (js "ajuda") None fresh
           (VObj [(js "intent", VStr (js "help")); (js "entities", VObj []);
                  (js "confidence", VNum (9 # 10));
                  (js "response", VStr (js "Posso criar tarefas e notas."))])).
  - exists reply_help. split; [reflexivity |]. split; [discriminate | reflexivity].
  - reflexivity.
  - reflexivity.
Defined.

(** X7.  When the call to the classifier throws, or its reply has no
    content, [processAndExecute] still returns: the result has intent
    ['error'], the command result is a success whose message is the fixed
    apology, nothing is appended to the history and no Notion service is
    called. *)
Theorem classifier_failure_apology (env : Env) (input : jsstring)
    (sessionId : option jsstring) (m : Machine) :
  let sid := default (js "default") sessionId in
  let recent := slice_last 3 (history_of m sid) in
  match openai_create env (trace m) recent input with
  | Ok (Some (_ :: _)) => False
  | _ => True
  end ->
  exists m',
    processAndExecute env input sessionId m = (Ok (error_result, apology), m')
    /\ success apology = true
    /\ message apology
       = VStr (js "Desculpe, não consegui entender sua solicitação. Pode reformular?")
    /\ history_of m' sid = history_of m sid
    /\ trace m' = trace m ++ [OpenAICreate recent input].
Proof.
  intros sid recent Hfail.
  unfold processAndExecute, processInput, try_catch, processInput_try, bind. fold sid.
  rewrite getOrCreateContext_exact. cbv beta iota.
  rewrite analyzeIntent_run. cbv zeta. rewrite context_for_history. fold recent.
  unfold with_context. cbn [trace context ticks].
  destruct (openai_create env (trace m) recent input) as [[[| u rest] |] | e]; try done;
    unfold ret; cbv beta iota; rewrite executeCommand_apology; eexists;
    (split; [reflexivity |]); (split; [reflexivity |]); (split; [reflexivity |]);
    (split; [| reflexivity]);
    unfold history_of; simpl; rewrite lookup_insert_eq; apply context_for_history.
Qed.

Lemma classifier_failure_apology_witness :
  exists m',
    processAndExecute unreachable_classifier (js "mostrar dashboard") None fresh
    = (Ok (error_result, apology), m')
    /\ success apology = true
    /\ message apology
       = VStr (js "Desculpe, não consegui entender sua solicitação. Pode reformular?")
    /\ history_of m' (js "default") = history_of fresh (js "default")
    /\ trace m' = trace fresh ++ [OpenAICreate (slice_last 3 (history_of fresh (js "default")))
                                    (js "mostrar dashboard")].
Proof.
  exact (classifier_failure_apology unreachable_classifier (js "mostrar dashboard") None fresh I).
Defined.

(** X8.  The reply is not validated: when it is the JSON [null], or when
    for [create_task], [update_task] or [list_tasks] its priority is a
    truthy value that is not a string (the number 1, say), extraction
    throws and [processInput] returns the error result, the history being
    left as it was. *)
Theorem unvalidated_reply_fails (env : Env) (input : jsstring)
    (sessionId : option jsstring) (m : Machine) (analysis : value) :
  classified env m sessionId input analysis ->
  nullish analysis = true
  \/ (nullish (prop analysis (js "entities")) = false
      /\ ~ lowerable (prop (prop analysis (js "entities")) (js "priority"))
      /\ (prop analysis (js "intent") = VStr (js "create_task")
          \/ prop analysis (js "intent") = VStr (js "update_task")
          \/ prop analysis (js "intent") = VStr (js "list_tasks"))) ->
  exists m',
    processInput env input sessionId m = (Ok error_result, m')
    /\ history_of m' (default (js "default") sessionId)
       = history_of m (default (js "default") sessionId).
Proof.
  intros Hcl Hbad.
  destruct (processInput_extract_throws env m sessionId input analysis Hcl)
    as (m' & Hrun & Hh & _); [| by eauto].
  intros m0. destruct Hbad as [Hnull | (Hent & Hprio & Hint)].
  - unfold extractCommand, bind, get. rewrite Hnull. by eexists _, _.
  - pose proof (prop_not_nullish _ _ Hent) as Han.
    unfold extractCommand, bind.
    repeat (rewrite (get_present env _ _ _ Han); cbv beta iota).
    assert (Hthrow : forall m1, exists e,
               normalizePriority env (prop (prop analysis (js "entities")) (js "priority")) m1
               = (Throw e, m1))
      by (intros m1; by apply normalizePriority_throws).
    destruct Hint as [-> | [-> | ->]].
    + change (intent_is (VStr (js "create_task")) "create_task") with true. cbv beta iota.
      repeat (rewrite (get_present env _ _ _ Hent); cbv beta iota).
      destruct (Hthrow m0) as (e & ->). by eexists _, _.
    + change (intent_is (VStr (js "update_task")) "create_task") with false.
      change (intent_is (VStr (js "update_task")) "update_task") with true. cbv beta iota.
      repeat (rewrite (get_present env _ _ _ Hent); cbv beta iota).
      destruct (Hthrow m0) as (e & ->). by eexists _, _.
    + change (intent_is (VStr (js "list_tasks")) "create_task") with false.
      change (intent_is (VStr (js "list_tasks")) "update_task") with false.
      change (intent_is (VStr (js "list_tasks")) "complete_task") with false.
      change (intent_is (VStr (js "list_tasks")) "list_tasks") with true. cbv beta iota.
      repeat (rewrite (get_present env _ _ _ Hent); cbv beta iota).
      destruct (Hthrow m0) as (e & ->). by eexists _, _.
Qed.

Lemma unvalidated_reply_fails_witness :
  exists m',
    processInput (answering_more reply_numeric_priority) (js "criar tarefa Revisar") None fresh
    = (Ok error_result, m')
    /\ history_of m' (default (js "default") None) = history_of fresh (default (js "default") None).
Proof.
  apply (unvalidated_reply_fails (answering_more reply_numeric_priority)
           (js "criar tarefa Revisar") None fresh
           (VObj [(js "intent", VStr (js "create_task"));
                  (js "entities",
                   VObj [(js "title", VStr (js "Revisar")); (js "priority", VNum 1)]);
                  (js "confidence", VNum (9 # 10))])).
  - exists reply_numeric_priority. split; [reflexivity |]. split; [discriminate | reflexivity].
  - right. split; [reflexivity |]. split; [| left; reflexivity].
    intros [Hfalsy | [s Hs]]; discriminate.
Defined.

(** ** Commands between extraction and dispatch *)

Lemma extractCommand_routable (env : Env) (input : jsstring) (analysis : value) :
  ensures routable (extractCommand env input analysis).
Proof.
  unfold extractCommand.
  repeat match goal with
         | |- ensures _ (bind _ _) => apply ensures_bind; intros ?
         | |- ensures _ (if ?b then _ else _) => destruct b
         | |- ensures _ (ret _) =>
             apply ensures_ret; first [reflexivity | split; [reflexivity | by eexists]]
         end.
Qed.

(** X9.  Every command that [processInput] puts in its result has an
    action that [executeCommand] routes, and parameters that are an
    object; a result without command has no parameters.  The branch of
    [executeCommand] for another action answers 'Comando não reconhecido.'
    with the action named in [error], and calls no service. *)
Theorem commands_always_routed (env : Env) (input : jsstring)
    (sessionId : option jsstring) (m : Machine) :
  match (processInput env input sessionId m).1 with
  | Ok r =>
      match command r with
      | Some c => known_action c = true /\ exists fs, parameters r = VObj fs
      | None => parameters r = VUndefined
      end
  | Throw _ => False
  end
  /\ forall r c m0,
       command r = Some c ->
       known_action c = false ->
       executeCommand env r m0
       = (Ok (failed "Comando não reconhecido."
                (js "Ação '" ++ c_action c ++ js "' não implementada")), m0).
Proof.
  split.
  - destruct (processInput_cases env input sessionId m) as (c0 & _ & Hcases).
    destruct Hcases as [(m' & Hrun & _) | (a & x & m1 & m2 & c1 & _ & Hex & Hrun & _)];
      rewrite Hrun; simpl; [done |].
    apply (extractCommand_routable env input a m1 x m2 Hex).
  - intros r c m0 Hc Hunknown. unfold executeCommand. rewrite Hc.
    unfold known_action, executor_actions in Hunknown.
    repeat (apply existsb_cons_false in Hunknown; destruct Hunknown as [-> Hunknown]).
    reflexivity.
Qed.

Lemma commands_always_routed_witness :
  let r :=
    {| intent := VStr (js "delete_task");
       entities := VObj [];
       confidence := VNum 1;
       command := cmd "delete" "task" "delete_task";
       parameters := VObj [];
       response := VUndefined |} in
  executeCommand (answering reply_greeting) r fresh
  = (Ok (failed "Comando não reconhecido."
           (js "Ação '" ++ js "delete_task" ++ js "' não implementada")), fresh).
Proof.
  exact (proj2 (commands_always_routed (answering reply_greeting) (js "oi") None fresh)
           {| intent := VStr (js "delete_task");
              entities := VObj [];
              confidence := VNum 1;
              command := cmd "delete" "task" "delete_task";
              parameters := VObj [];
              response := VUndefined |}
           {| c_type := js "delete"; c_target := js "task"; c_action := js "delete_task" |}
           fresh eq_refl eq_refl).
Defined.

Lemma processInput_extract_returns_with (env : Env) (m : Machine)
    (sessionId : option jsstring) (input : jsstring) (analysis : value)
    (Q : option AICommand * value -> Prop) :
  classified env m sessionId input analysis ->
  (forall m0, exists x m1, extractCommand env input analysis m0 = (Ok x, m1) /\ Q x) ->
  exists x m',
    processInput env input sessionId m
    = (Ok {| intent := prop analysis (js "intent");
             entities := prop analysis (js "entities");
             confidence := prop analysis (js "confidence");
             command := x.1;
             parameters := x.2;
             response := prop analysis (js "response") |}, m')
    /\ Q x
    /\ trace m'
       = trace m
         ++ [OpenAICreate
               (slice_last 3 (history_of m (default (js "default") sessionId))) input].
Proof.
  intros Hcl Hret.
  unfold processInput, try_catch, processInput_try, bind.
  set (sid := default (js "default") sessionId).
  rewrite getOrCreateContext_exact. cbv beta iota.
  rewrite (classified_run env m sessionId input analysis sid eq_refl Hcl). cbv beta iota.
  match goal with |- context [extractCommand env input analysis ?m0] =>
    destruct (Hret m0) as (x & m1 & Hex & HQ);
    pose proof (extractCommand_silent env input analysis m0) as [_ Ht];
    rewrite Hex in Ht |- * end.
  simpl in Ht.
  destruct (updateContext_run env sid input
              (or_else (prop analysis (js "response")) (VStr [])) m1) as (c1 & Hup & _).
  rewrite Hup. simpl. eexists x, _. split; [reflexivity |]. done.
Qed.

Lemma updateTask_unspecified (env : Env) (params : value) (m : Machine) :
  nullish params = false ->
  truthy (prop params (js "taskId")) = false ->
  truthy (prop params (js "title")) = false ->
  updateTask env params m
  = (Ok (failed "É necessário especificar qual tarefa atualizar."
           (js "ID ou título da tarefa não fornecido")), m).
Proof.
  intros Hp Hid Ht. unfold updateTask, try_catch, bind.
  rewrite (get_present env _ _ _ Hp). cbv beta iota. by rewrite Hid, Ht.
Qed.

Lemma completeTask_unspecified (env : Env) (params : value) (m : Machine) :
  nullish params = false ->
  truthy (prop params (js "taskId")) = false ->
  truthy (prop params (js "title")) = false ->
  completeTask env params m
  = (Ok (failed "É necessário especificar qual tarefa completar."
           (js "ID ou título da tarefa não fornecido")), m).
Proof.
  intros Hp Hid Ht. unfold completeTask, try_catch, bind.
  rewrite (get_present env _ _ _ Hp). cbv beta iota. by rewrite Hid, Ht.
Qed.

(** X10.  An [update_task] reply without a task id never reaches the
    title search: [extractCommand] puts the title under [updates], the
    executor looks for it beside [taskId], and [processAndExecute] answers
    with the failure that asks which task to update, whatever the title
    in the reply, without calling a Notion service. *)
Theorem update_without_id_never_searches (env : Env) (input : jsstring)
    (sessionId : option jsstring) (m : Machine) (analysis : value) :
  let entities := prop analysis (js "entities") in
  classified env m sessionId input analysis ->
  prop analysis (js "intent") = VStr (js "update_task") ->
  nullish entities = false ->
  truthy (prop entities (js "task_id")) = false ->
  lowerable (prop entities (js "priority")) ->
  lowerable (prop entities (js "due_date")) ->
  exists r m',
    processAndExecute env input sessionId m
    = (Ok (r, failed "É necessário especificar qual tarefa atualizar."
                (js "ID ou título da tarefa não fornecido")), m')
    /\ prop (prop (parameters r) (js "updates")) (js "title") = prop entities (js "title")
    /\ trace m'
       = trace m
         ++ [OpenAICreate
               (slice_last 3 (history_of m (default (js "default") sessionId))) input].
Proof.
  intros entities Hcl Hint Hent Hid Hprio Hdate.
  pose proof (prop_not_nullish _ _ Hent) as Han.
  destruct (processInput_extract_returns_with env m sessionId input analysis
              (fun x => x.1 = cmd "update" "task" "update_task"
                        /\ nullish x.2 = false
                        /\ prop x.2 (js "taskId") = prop entities (js "task_id")
                        /\ prop x.2 (js "title") = VUndefined
                        /\ prop (prop x.2 (js "updates")) (js "title")
                           = prop entities (js "title")) Hcl)
    as (x & m' & Hrun & (Hcmd & Hps & Htid & Htitle & Hupd) & Ht).
  { intros m0. unfold extractCommand, bind.
    repeat (rewrite (get_present env _ _ _ Han); cbv beta iota).
    fold entities. rewrite Hint.
    change (intent_is (VStr (js "update_task")) "create_task") with false.
    change (intent_is (VStr (js "update_task")) "update_task") with true. cbv beta iota.
    repeat (rewrite (get_present env _ _ _ Hent); cbv beta iota).
    destruct (normalizePriority_returns env _ m0 Hprio) as (p & ->).
    destruct (parseDate_returns env _ m0 Hdate) as (d & m1 & ->).
    eexists _, m1. split; [reflexivity |]. repeat split; reflexivity. }
  eexists _, m'. split.
  - unfold processAndExecute, bind. rewrite Hrun.
    erewrite executeCommand_updateTask; [| exact Hcmd | reflexivity].
    unfold try_catch. cbn [parameters].
    rewrite updateTask_unspecified; [reflexivity | done | by rewrite Htid | by rewrite Htitle].
  - split; [exact Hupd | exact Ht].
Qed.

Lemma update_without_id_never_searches_witness :
  exists r m',
    processAndExecute (answering reply_update_task) (js "atualizar tarefa Revisar") None fresh
    = (Ok (r, failed "É necessário especificar qual tarefa atualizar."
                (js "ID ou título da tarefa não fornecido")), m')
    /\ prop (prop (parameters r) (js "updates")) (js "title") = VStr (js "Revisar")
    /\ trace m' = trace fresh ++ [OpenAICreate (slice_last 3 (history_of fresh (js "default")))
                                    (js "atualizar tarefa Revisar")].
Proof.
  apply (update_without_id_never_searches (answering reply_update_task)
           (js "atualizar tarefa Revisar") None fresh
           (VObj [(js "intent", VStr (js "update_task"));
                  (js "entities",
                   VObj [(js "title", VStr (js "Revisar"));
                         (js "status", VStr (js "Em progresso"))]);
                  (js "confidence", VNum (9 # 10))])).
  - exists reply_update_task. split; [reflexivity |]. split; [discriminate | reflexivity].
  - reflexivity.
  - reflexivity.
  - reflexivity.
  - left. reflexivity.
  - left. reflexivity.
Defined.

(** ** Calls made by the executor *)

(** X11.  When the parameters of an [update_task] or [complete_task]
    command carry a task id, no search is made, also when a title is
    given: the one call is the mutation, with that id. *)
Theorem id_given_no_search (env : Env) (r : NLPResult) (c : AICommand) (m : Machine) :
  command r = Some c ->
  c_action c = js "update_task" \/ c_action c = js "complete_task" ->
  truthy (prop (parameters r) (js "taskId")) = true ->
  let params := parameters r in
  let taskId := prop params (js "taskId") in
  trace (executeCommand env r m).2
  = trace m
    ++ [if action_is c "update_task" then UpdateTask taskId (prop params (js "updates"))
        else CompleteTask taskId].
Proof.
  intros Hc Hact Hid params taskId.
  pose proof (truthy_not_nullish _ _ Hid) as Hparams.
  destruct Hact as [Hact | Hact].
  - rewrite (executeCommand_updateTask env r c Hc Hact), (action_is_eq _ _ Hact).
    unfold try_catch at 1, updateTask, try_catch, bind.
    rewrite (get_present env _ _ _ Hparams), Hid. simpl. unfold call.
    destruct (notion_updateTask env _ _ _); reflexivity.
  - rewrite (executeCommand_completeTask env r c Hc Hact).
    replace (action_is c "update_task") with false
      by (unfold action_is; rewrite Hact; reflexivity).
    unfold try_catch at 1, completeTask, try_catch, bind.
    rewrite (get_present env _ _ _ Hparams), Hid. simpl. unfold call.
    destruct (notion_completeTask env _ _); reflexivity.
Qed.

Lemma id_given_no_search_witness :
  let r :=
    {| intent := VStr (js "complete_task");
       entities := VObj [];
       confidence := VNum 1;
       command := cmd "update" "task" "complete_task";
       parameters := VObj [(js "taskId", VStr (js "42")); (js "title", VStr (js "Reunião X"))];
       response := VUndefined |} in
  trace (executeCommand no_task_found r fresh).2 = trace fresh ++ [CompleteTask (VStr (js "42"))].
Proof.
  exact (id_given_no_search no_task_found
           {| intent := VStr (js "complete_task");
              entities := VObj [];
              confidence := VNum 1;
              command := cmd "update" "task" "complete_task";
              parameters :=
                VObj [(js "taskId", VStr (js "42")); (js "title", VStr (js "Reunião X"))];
              response := VUndefined |}
           {| c_type := js "update"; c_target := js "task"; c_action := js "complete_task" |}
           fresh eq_refl (or_intror eq_refl) eq_refl).
Defined.

Ltac split_run :=
  repeat (cbv beta iota;
          match goal with
          | |- context [match command ?r with _ => _ end] => destruct (command r)
          | |- context [if ?b then _ else _] => destruct b
          | |- context [match ?x with Ok _ => _ | Throw _ => _ end] => destruct x
          | |- context [match ?l with [] => _ | _ :: _ => _ end] => destruct l
          end).

Ltac trace_grows :=
  first [ exists []; split; [by rewrite app_nil_r | simpl; lia]
        | eexists [_]; split; [reflexivity | simpl; lia]
        | eexists [_; _]; split; [by rewrite <- app_assoc | simpl; lia] ].

(** X12.  [executeCommand] never retries and never fans out: whatever the
    command and whatever the services answer, it makes at most two calls. *)
Theorem at_most_two_calls (env : Env) (r : NLPResult) (m : Machine) :
  exists evs,
    trace (executeCommand env r m).2 = trace m ++ evs /\ (length evs <= 2)%nat.
Proof.
  unfold executeCommand, createTask, updateTask, completeTask, listTasks, createNote,
    searchNotes, createProject, getDashboard, getAnalytics, try_catch, bind, call, get,
    ret, throw.
  split_run; simpl; trace_grows.
Qed.

(** X13.  When the Notion services fail, with every call throwing [e], the
    executor still returns.  Either it made no call (nothing to dispatch,
    or parameters refused before any call), or it made exactly one call
    and the result is a failure whose [error] is the message of [e], or
    'Erro desconhecido' when [e] is not an [Error]. *)
Theorem notion_failure_converted (e : exn) (env : Env) (r : NLPResult) (m : Machine) :
  exists cr evs m',
    executeCommand (throwing e env) r m = (Ok cr, m')
    /\ trace m' = trace m ++ evs
    /\ (evs = []
        \/ exists ev,
             evs = [ev] /\ is_store ev = true
             /\ success cr = false
             /\ error cr = Some (error_message e)).
Proof.
  unfold executeCommand, createTask, updateTask, completeTask, listTasks, createNote,
    searchNotes, createProject, getDashboard, getAnalytics, try_catch, bind, call, get,
    ret, throw, throwing.
  cbn [notion_createTask notion_searchTasks notion_updateTask notion_completeTask
       notion_createNote notion_searchNotes notion_createProject
       notion_getDashboardSummary notion_getProductivityStats typeErrorMessage].
  split_run; eexists _, _, _; (split; [reflexivity |]); simpl;
    first [ split; [symmetry; apply app_nil_r | by left]
          | split; [reflexivity | right; eexists; by repeat split] ].
Qed.

(** ** Listings *)










(** ** Creation of notes and projects *)

Lemma executeCommand_createNote (env : Env) (r : NLPResult) (c : AICommand) :
  command r = Some c ->
  c_action c = js "create_note" ->
  executeCommand env r
  = try_catch (createNote env (parameters r))
      (fun e => ret (failed "Ocorreu um erro ao executar o comando." (error_message e))).
Proof.
  intros Hc Hact. unfold executeCommand, action_is. rewrite Hc, Hact. reflexivity.
Qed.

Lemma executeCommand_createProject (env : Env) (r : NLPResult) (c : AICommand) :
  command r = Some c ->
  c_action c = js "create_project" ->
  executeCommand env r
  = try_catch (createProject env (parameters r))
      (fun e => ret (failed "Ocorreu um erro ao executar o comando." (error_message e))).
Proof.
  intros Hc Hact. unfold executeCommand, action_is. rewrite Hc, Hact. reflexivity.
Qed.

Lemma or_else_settled (a b c : value) :
  truthy b = true -> or_else (or_else a b) c = or_else a b.
Proof. intros Hb. unfold or_else at 1. by rewrite or_else_truthy. Qed.

Lemma createNote_trace (env : Env) (r : NLPResult) (c : AICommand) (m : Machine) :
  command r = Some c ->
  c_action c = js "create_note" ->
  nullish (parameters r) = false ->
  trace (executeCommand env r m).2
  = trace m
    ++ [CreateNote
          (VObj [(js "title", or_else (prop (parameters r) (js "title"))
                                (VStr (js "Nova nota")));
                 (js "content", or_else (prop (parameters r) (js "content")) (VStr []));
                 (js "tags", or_else (prop (parameters r) (js "tags")) (VArr []))])].
Proof.
  intros Hc Hact Hparams. rewrite (executeCommand_createNote env r c Hc Hact).
  unfold try_catch at 1, createNote, try_catch, bind.
  rewrite (get_present env _ _ _ Hparams). unfold call.
  destruct (notion_createNote env (trace m) _); reflexivity.
Qed.

Lemma createProject_trace (env : Env) (r : NLPResult) (c : AICommand) (m : Machine) :
  command r = Some c ->
  c_action c = js "create_project" ->
  nullish (parameters r) = false ->
  trace (executeCommand env r m).2
  = trace m
    ++ [CreateProject
          (VObj [(js "name", or_else (prop (parameters r) (js "name"))
                               (VStr (js "Novo projeto")));
                 (js "description", prop (parameters r) (js "description"));
                 (js "status", or_else (prop (parameters r) (js "status"))
                                 (VStr (js "Ativo")))])].
Proof.
  intros Hc Hact Hparams. rewrite (executeCommand_createProject env r c Hc Hact).
  unfold try_catch at 1, createProject, try_catch, bind.
  rewrite (get_present env _ _ _ Hparams). unfold call.
  destruct (notion_createProject env (trace m) _); reflexivity.
Qed.

(** X16.  A note or a project asked for without usable names is still
    created.  Through [processAndExecute], a [create_project] reply with
    neither title nor project name makes one Notion call, [createProject]
    with the name 'Novo projeto' and the status 'Ativo'; a [create_note]
    reply makes one call, [createNote], whose title is the title of the
    reply or else the title taken from the input (never the executor's own
    'Nova nota'), and whose content is the description of the reply or
    else the input. *)
Theorem creations_through_pipeline (env : Env) (input : jsstring)
    (sessionId : option jsstring) (m : Machine) (analysis : value) :
  let entities := prop analysis (js "entities") in
  let asked :=
    OpenAICreate (slice_last 3 (history_of m (default (js "default") sessionId))) input in
  let after := (processAndExecute env input sessionId m).2 in
  classified env m sessionId input analysis ->
  nullish entities = false ->
  (prop analysis (js "intent") = VStr (js "create_project") ->
   truthy (prop entities (js "title")) = false ->
   truthy (prop entities (js "project_name")) = false ->
   trace after
   = trace m
     ++ [asked;
         CreateProject
           (VObj [(js "name", VStr (js "Novo projeto"));
                  (js "description", prop entities (js "description"));
                  (js "status", VStr (js "Ativo"))])])
  /\ (prop analysis (js "intent") = VStr (js "create_note") ->
      trace after
      = trace m
        ++ [asked;
            CreateNote
              (VObj [(js "title",
                      or_else (prop entities (js "title"))
                        (VStr (extractTitleFromInput input)));
                     (js "content",
                      or_else (or_else (prop entities (js "description")) (VStr input))
                        (VStr []));
                     (js "tags", or_else (prop entities (js "tags")) (VArr []))])]).
Proof.
  intros entities asked after Hcl Hent. subst after.
  pose proof (prop_not_nullish _ _ Hent) as Han.
  split.
  - intros Hint Htitle Hname.
    destruct (processInput_extract_returns env m sessionId input analysis
                (cmd "create" "project" "create_project",
                 VObj [(js "name", or_else (prop entities (js "title"))
                                     (prop entities (js "project_name")));
                       (js "description", prop entities (js "description"));
                       (js "status", VStr (js "Ativo"))]) Hcl)
      as (m' & Hrun & Ht).
    { intros m0. exists m0. unfold extractCommand, bind.
      repeat (rewrite (get_present env _ _ _ Han); cbv beta iota).
      fold entities. rewrite Hint.
      change (intent_is (VStr (js "create_project")) "create_task") with false.
      change (intent_is (VStr (js "create_project")) "update_task") with false.
      change (intent_is (VStr (js "create_project")) "complete_task") with false.
      change (intent_is (VStr (js "create_project")) "list_tasks") with false.
      change (intent_is (VStr (js "create_project")) "create_note") with false.
      change (intent_is (VStr (js "create_project")) "search_notes") with false.
      change (intent_is (VStr (js "create_project")) "create_project") with true.
      cbv beta iota.
      repeat (rewrite (get_present env _ _ _ Hent); cbv beta iota). reflexivity. }
    unfold processAndExecute, bind. rewrite Hrun.
    match goal with |- context [executeCommand env ?r m'] =>
      pose proof (createProject_trace env r
                    {| c_type := js "create"; c_target := js "project";
                       c_action := js "create_project" |} m' eq_refl eq_refl eq_refl) as Hex;
      destruct (executeCommand env r m') as [[cr | e] m2] end;
      simpl in Hex |- *; rewrite Hex, Ht, <- app_assoc; simpl;
      unfold or_else at 2; rewrite Htitle; unfold or_else; rewrite Hname; reflexivity.
  - intros Hint.
    destruct (processInput_extract_returns env m sessionId input analysis
                (cmd "create" "note" "create_note",
                 VObj [(js "title", or_else (prop entities (js "title"))
                                      (VStr (extractTitleFromInput input)));
                       (js "content", or_else (prop entities (js "description"))
                                        (VStr input));
                       (js "tags", or_else (prop entities (js "tags")) (VArr []))]) Hcl)
      as (m' & Hrun & Ht).
    { intros m0. exists m0. unfold extractCommand, bind.
      repeat (rewrite (get_present env _ _ _ Han); cbv beta iota).
      fold entities. rewrite Hint.
      change (intent_is (VStr (js "create_note")) "create_task") with false.
      change (intent_is (VStr (js "create_note")) "update_task") with false.
      change (intent_is (VStr (js "create_note")) "complete_task") with false.
      change (intent_is (VStr (js "create_note")) "list_tasks") with false.
      change (intent_is (VStr (js "create_note")) "create_note") with true.
      cbv beta iota.
      repeat (rewrite (get_present env _ _ _ Hent); cbv beta iota). reflexivity. }
    unfold processAndExecute, bind. rewrite Hrun.
    match goal with |- context [executeCommand env ?r m'] =>
      pose proof (createNote_trace env r
                    {| c_type := js "create"; c_target := js "note";
                       c_action := js "create_note" |} m' eq_refl eq_refl eq_refl) as Hex;
      destruct (executeCommand env r m') as [[cr | e] m2] end;
      simpl in Hex |- *; rewrite Hex, Ht, <- app_assoc; simpl;
      rewrite (or_else_settled _ _ (VStr (js "Nova nota")) (truthy_title input));
      rewrite (or_else_settled _ (VArr []) (VArr []) eq_refl); reflexivity.
Qed.

Lemma creations_through_pipeline_witness :
  trace (processAndExecute (answering reply_create_project) (js "criar projeto") None fresh).2
  = trace fresh
    ++ [OpenAICreate (slice_last 3 (history_of fresh (default (js "default") None)))
          (js "criar projeto");
        CreateProject
          (VObj [(js "name", VStr (js "Novo projeto"));
                 (js "description", VUndefined);
                 (js "status", VStr (js "Ativo"))])].
Proof.
  refine (proj1 (creations_through_pipeline (answering reply_create_project)
                   (js "criar projeto") None fresh
                   (VObj [(js "intent", VStr (js "create_project"));
                          (js "entities", VObj []);
                          (js "confidence", VNum (9 # 10))]) _ eq_refl)
            eq_refl eq_refl eq_refl).
  exists reply_create_project. split; [reflexivity |]. split; [discriminate | reflexivity].
Defined.

(** ** The title taken from the input *)

Lemma trimStart_suffix (s : jsstring) : exists spaces, s = spaces ++ trimStart s.
Proof.
  induction s as [| c s [spaces IH]]; [by exists [] |]. simpl.
  destruct (is_space c); [| by exists []].
  exists (c :: spaces). simpl. by rewrite <- IH.
Qed.

Lemma trimStart_clean (s : jsstring) : starts_clean (trimStart s).
Proof.
  induction s as [| c s IH]; [done |]. simpl.
  destruct (is_space c) eqn:Hc; [done | by simpl].
Qed.

Lemma trimEnd_prefix (s : jsstring) : exists spaces, s = trimEnd s ++ spaces.
Proof.
  unfold trimEnd. destruct (trimStart_suffix (rev s)) as [spaces Hs].
  exists (rev spaces). rewrite <- rev_app_distr, <- Hs. by rewrite rev_involutive.
Qed.

Lemma starts_clean_app (s t : jsstring) : starts_clean (s ++ t) -> starts_clean s.
Proof. by destruct s. Qed.

Lemma trim_trimmed (s : jsstring) : trimmed (trim s).
Proof.
  unfold trimmed, trim. split.
  - destruct (trimEnd_prefix (trimStart s)) as [spaces Hs].
    apply (starts_clean_app _ spaces). rewrite <- Hs. apply trimStart_clean.
  - unfold trimEnd. rewrite rev_involutive. apply trimStart_clean.
Qed.

Lemma trim_occurs (s : jsstring) : occurs_in (trim s) s.
Proof.
  unfold trim. destruct (trimStart_suffix s) as [a Ha].
  destruct (trimEnd_prefix (trimStart s)) as [b Hb].
  exists a, b. by rewrite <- Hb.
Qed.

Lemma starts_with_ci_suffix (pat s rest : jsstring) :
  starts_with_ci pat s = Some rest -> exists matched, s = matched ++ rest.
Proof.
  revert s. induction pat as [| p pat IH]; intros s; simpl.
  - intros [= ->]. by exists [].
  - destruct s as [| c s]; [done |].
    destruct (fold_case c =? p); [| done].
    intros [matched ->]%IH. by exists (c :: matched).
Qed.

Lemma first_match_suffix (s : jsstring) (alts : list jsstring) (rest : jsstring) :
  first_match s alts = Some rest -> exists removed, s = removed ++ rest.
Proof.
  induction alts as [| alt alts IH]; [done |]. simpl.
  unfold match_verb.
  destruct (starts_with_ci alt s) as [[| c tail] |] eqn:Hstart; try apply IH.
  destruct (is_space c); [| apply IH].
  intros [= <-]. apply starts_with_ci_suffix in Hstart as [matched ->].
  destruct (trimStart_suffix tail) as [spaces Htail].
  exists (matched ++ c :: spaces). rewrite <- app_assoc. simpl. by rewrite <- Htail.
Qed.

Lemma strip_leading_verb_suffix (input : jsstring) :
  exists removed, input = removed ++ strip_leading_verb input.
Proof.
  unfold strip_leading_verb.
  destruct (first_match input _) as [rest |] eqn:Hm; simpl.
  - by apply first_match_suffix in Hm.
  - by exists [].
Qed.

Lemma strip_trailing_noun_prefix (s : jsstring) :
  exists removed, s = strip_trailing_noun s ++ removed.
Proof.
  unfold strip_trailing_noun.
  destruct (first_match (trimStart (rev s)) _) as [rest |] eqn:Hm; simpl.
  - apply first_match_suffix in Hm as [removed Hm].
    destruct (trimStart_suffix (rev s)) as [spaces Hs].
    exists (rev (spaces ++ removed)).
    rewrite <- rev_app_distr, <- app_assoc, <- Hm, <- Hs. by rewrite rev_involutive.
  - exists []. by rewrite app_nil_r.
Qed.

Lemma occurs_in_trans (a b c : jsstring) : occurs_in a b -> occurs_in b c -> occurs_in a c.
Proof.
  intros (p1 & q1 & ->) (p2 & q2 & ->). exists (p2 ++ p1), (q1 ++ q2).
  by rewrite <- !app_assoc.
Qed.

(** X17.  The title that [extractTitleFromInput] gives is never empty and
    has no white space at either end; it is ['Nova tarefa'] or a piece of
    the input, copied as it stands (same characters, same case). *)
Theorem extractTitleFromInput_shape (input : jsstring) :
  let title := extractTitleFromInput input in
  title <> []
  /\ trimmed title
  /\ (title = js "Nova tarefa" \/ occurs_in title input).
Proof.
  intros title. subst title. split; [apply extractTitleFromInput_nonempty |].
  unfold extractTitleFromInput.
  destruct (jsstring_eqb (cleanInput input) []).
  - split; [| by left]. split; vm_compute; reflexivity.
  - unfold cleanInput. split; [apply trim_trimmed |]. right.
    eapply occurs_in_trans; [apply trim_occurs |].
    destruct (strip_leading_verb_suffix input) as [verb Hv].
    destruct (strip_trailing_noun_prefix (strip_leading_verb input)) as [noun Hn].
    exists verb, noun. by rewrite <- Hn.
Qed.

(** ** Runs of white space *)

Section Runs_of_separators.

Variable is_sep : N -> bool.
Variable k : nat.
Variable rep : jsstring.
Hypothesis sep_is_space : forall c, is_sep c = true -> is_space c = true.
Hypothesis k_positive : (1 <= k)%nat.

Lemma replace_runs_starts_clean (s : jsstring) :
  starts_clean s -> starts_clean (replace_runs is_sep k rep [] s).
Proof.
  destruct s as [| c s]; simpl.
  - destruct (Nat.leb_spec k 0); [lia | done].
  - intros Hc. destruct (is_sep c) eqn:Hsep.
    + apply sep_is_space in Hsep. congruence.
    + destruct (Nat.leb_spec k 0); [lia | done].
Qed.

Lemma replace_runs_nonempty (s run : jsstring) :
  rep <> [] -> s <> [] \/ run <> [] -> replace_runs is_sep k rep run s <> [].
Proof.
  intros Hrep. revert run. induction s as [| c s IH]; intros run Hne; simpl.
  - destruct Hne as [? | Hrun]; [done |]. by destruct (k <=? length run)%nat.
  - destruct (is_sep c).
    + apply IH. right. by destruct run.
    + by destruct (if (k <=? length run)%nat then rep else run).
Qed.

Lemma ends_clean_cons (c : N) (s : jsstring) :
  s <> [] -> ends_clean (c :: s) <-> ends_clean s.
Proof. intros Hs. unfold ends_clean. destruct s as [| d s]; [done |]. done. Qed.

Lemma ends_clean_app (a s : jsstring) : s <> [] -> ends_clean s -> ends_clean (a ++ s).
Proof.
  intros Hs Hc. induction a as [| x a IH]; [done |]. simpl.
  apply ends_clean_cons; [by destruct a, s | done].
Qed.

Lemma replace_runs_ends_clean (s run : jsstring) :
  rep <> [] ->
  (s = [] -> run = []) ->
  ends_clean s -> ends_clean (replace_runs is_sep k rep run s).
Proof.
  intros Hrep. revert run. induction s as [| c s IH]; intros run Hrun Hclean; simpl.
  - rewrite (Hrun eq_refl). simpl. destruct (Nat.leb_spec k 0); [lia | done].
  - destruct (is_sep c) eqn:Hsep.
    + assert (s <> []) as Hs.
      { intros ->. apply sep_is_space in Hsep. unfold ends_clean in Hclean. simpl in Hclean.
        congruence. }
      apply IH; [done | by apply ends_clean_cons in Hclean].
    + apply ends_clean_app; [done |].
      destruct s as [| d s].
      * simpl. destruct (Nat.leb_spec k 0); [lia | done].
      * apply ends_clean_cons; [by apply replace_runs_nonempty; auto |].
        apply IH; [done | by apply ends_clean_cons in Hclean].
Qed.

Lemma replace_runs_unchanged (s : jsstring) :
  Forall (fun c => is_sep c = false) s -> replace_runs is_sep k rep [] s = s.
Proof.
  induction 1 as [| c s Hc _ IH]; simpl.
  - destruct (Nat.leb_spec k 0); [lia | done].
  - rewrite Hc, IH. destruct (Nat.leb_spec k 0); [lia | done].
Qed.

End Runs_of_separators.

Lemma ends_clean_rev (s : jsstring) : ends_clean s <-> starts_clean (rev s).
Proof.
  destruct s as [| c s _] using rev_ind; [done |].
  unfold ends_clean. rewrite last_snoc, rev_app_distr. done.
Qed.

Lemma no_adjacent_spaces_cons (c : N) (s : jsstring) :
  is_space c = false -> no_adjacent_spaces s -> no_adjacent_spaces (c :: s).
Proof. intros Hc Hs. simpl. split; [| done]. destruct s; [done | by rewrite Hc]. Qed.

Lemma no_adjacent_spaces_lead (w : jsstring) (c : N) (s : jsstring) :
  (length w <= 1)%nat -> is_space c = false -> no_adjacent_spaces s ->
  no_adjacent_spaces (w ++ c :: s).
Proof.
  intros Hw Hc Hs. destruct w as [| x [| y w]]; simpl in Hw; [| | lia].
  - by apply no_adjacent_spaces_cons.
  - simpl. split; [by rewrite Hc, andb_false_r |].
    by apply (no_adjacent_spaces_cons c s).
Qed.

Lemma collapse_no_adjacent (k : nat) (s run : jsstring) :
  (1 <= k <= 2)%nat ->
  no_adjacent_spaces (replace_runs is_space k (js " ") run s).
Proof.
  intros Hk. revert run. induction s as [| c s IH]; intros run; simpl.
  - destruct (Nat.leb_spec k (length run)); [by vm_compute |].
    destruct run as [| x [| y run]]; simpl in *; try done; lia.
  - destruct (is_space c) eqn:Hc; [apply IH |].
    apply no_adjacent_spaces_lead; [| done | apply IH].
    destruct (Nat.leb_spec k (length run)); [by vm_compute | lia].
Qed.

Lemma collapse_plain (s run : jsstring) :
  only_plain_spaces (replace_runs is_space 1 (js " ") run s).
Proof.
  revert run. induction s as [| c s IH]; intros run; simpl.
  - destruct run; simpl; [constructor | by repeat constructor].
  - destruct (is_space c) eqn:Hc; [apply IH |].
    apply Forall_app. split.
    + destruct run; simpl; [constructor | by repeat constructor].
    + constructor; [congruence | apply IH].
Qed.

Lemma line_break_is_space (c : N) : is_line_break c = true -> is_space c = true.
Proof.
  unfold is_line_break. intros [Hc | Hc]%orb_true_iff; apply N.eqb_eq in Hc; by subst c.
Qed.

(** X18.  [NLPUtils.cleanInput] lower-cases a normal form of the input:
    no white space at either end, every white-space character a plain
    space, never two in a row.  Its second replacement (of line breaks)
    never changes anything, the first having left no line break. *)
Theorem cleanInput_normal_form (env : Env) (input : jsstring) :
  let normalized := replace_runs is_space 1 (js " ") [] (trim input) in
  NLPUtils.cleanInput env input = toLowerCase env normalized
  /\ replace_runs is_line_break 1 (js " ") [] normalized = normalized
  /\ trimmed normalized
  /\ only_plain_spaces normalized
  /\ no_adjacent_spaces normalized.
Proof.
  intros normalized.
  assert (Hplain : only_plain_spaces normalized) by apply collapse_plain.
  assert (Hsame : replace_runs is_line_break 1 (js " ") [] normalized = normalized).
  { apply replace_runs_unchanged; [done |].
    eapply Forall_impl; [exact Hplain |]. intros c Hc. simpl in Hc.
    destruct (is_line_break c) eqn:Hlb; [| done].
    specialize (Hc (line_break_is_space c Hlb)). subst c. done. }
  split.
  { change (toLowerCase env (replace_runs is_line_break 1 (js " ") [] normalized)
            = toLowerCase env normalized).
    by rewrite Hsame. }
  split; [done |].
  split; [| split; [done | subst normalized; apply collapse_no_adjacent; lia]].
  destruct (trim_trimmed input) as [Hstart Hend]. split.
  - apply (replace_runs_starts_clean is_space 1 (js " ")); [done | lia | done].
  - apply ends_clean_rev.
    apply (replace_runs_ends_clean is_space 1 (js " ")); [done | lia | done | done |].
    by apply ends_clean_rev.
Qed.

(** X19.  The text that [NotionUtils.sanitizeText] returns has no white
    space at either end and never two white-space characters in a row: in
    particular two line breaks in a row, which its first replacement
    keeps, do not survive the second. *)
Theorem sanitizeText_single_spaced (text : jsstring) :
  let clean := NotionUtils.sanitizeText text in
  trimmed clean
  /\ no_adjacent_spaces clean
  /\ ~ occurs_in [10; 10] clean.
Proof.
  intros clean.
  assert (Hno : no_adjacent_spaces clean)
    by (subst clean; apply collapse_no_adjacent; lia).
  split; [| split; [done |]].
  - assert (Hnl : forall c, is_newline c = true -> is_space c = true).
    { intros c Hc. unfold is_newline in Hc. apply N.eqb_eq in Hc. by subst c. }
    destruct (trim_trimmed text) as [Hstart Hend]. split.
    + apply (replace_runs_starts_clean is_space 2 (js " ")); [done | lia |].
      apply (replace_runs_starts_clean is_newline 3 [10; 10] Hnl); [lia | done].
    + apply ends_clean_rev.
      apply (replace_runs_ends_clean is_space 2 (js " ")); [done | lia | done | done |].
      apply (replace_runs_ends_clean is_newline 3 [10; 10] Hnl); [lia | done | done |].
      by apply ends_clean_rev.
  - intros (before & after & Hocc). revert Hno. rewrite Hocc. clear.
    induction before as [| x before IH]; simpl.
    + by intros [? _].
    + intros [_ H]. by apply IH.
Qed.

(** ** Hashtags *)

Lemma hashtags_good (s before : jsstring) (tag : option jsstring) :
  match tag with
  | Some read =>
      Forall (fun c => is_tag_char c = true) read
      /\ exists start, before = start ++ 35 :: read
  | None => True
  end ->
  Forall (good_tag (before ++ s)) (hashtags tag s).
Proof.
  revert before tag. induction s as [| c s IH]; intros before tag Htag; simpl.
  - destruct tag as [[| x read] |]; [constructor | | constructor].
    destruct Htag as [Hread (start & ->)].
    constructor; [| constructor].
    split; [done |]. split; [done |]. exists start, []. by rewrite !app_nil_r.
  - assert (Hnext : Forall (good_tag ((before ++ [c]) ++ s)) (hashtags (after_char c) s)).
    { apply IH. unfold after_char. destruct (N.eqb_spec c 35) as [-> | _]; [| done].
      split; [constructor |]. by exists before. }
    rewrite <- app_assoc in Hnext. simpl in Hnext.
    destruct tag as [read |]; [| done].
    destruct Htag as [Hread (start & ->)].
    destruct (is_tag_char c) eqn:Hc.
    + replace ((start ++ 35 :: read) ++ c :: s) with (((start ++ 35 :: read) ++ [c]) ++ s)
        by (by rewrite <- app_assoc).
      apply IH. split.
      * apply Forall_app. split; [done | by repeat constructor].
      * exists start. by rewrite <- app_assoc.
    + apply Forall_app. split; [| done].
      destruct read as [| x read]; constructor; [| constructor].
      split; [done |]. split; [done |].
      exists start, (c :: s). by rewrite <- app_assoc.
Qed.

(** X20.  Every tag that [extractHashtags] returns is not empty, is made
    of letters, digits and underscores only, and stands in the text right
    after a [#]; a text without [#] has no tag. *)
Theorem extractHashtags_tags (text : jsstring) :
  Forall (fun tag =>
            tag <> []
            /\ Forall (fun c => is_tag_char c = true) tag
            /\ occurs_in (35 :: tag) text)
         (extractHashtags text)
  /\ (Forall (fun c => c <> 35) text -> extractHashtags text = []).
Proof.
  split.
  - apply (hashtags_good text [] None I).
  - unfold extractHashtags. induction 1 as [| c s Hc _ IH]; simpl; [done |].
    unfold after_char. by destruct (N.eqb_spec c 35).
Qed.

Lemma extractHashtags_tags_witness :
  extractHashtags (js "sem etiquetas") = [].
Proof.
  apply (proj2 (extractHashtags_tags (js "sem etiquetas"))).
  apply Forall_forall. intros c Hc%list_elem_of_In. vm_compute in Hc.
  repeat (destruct Hc as [<- | Hc]; [discriminate |]). destruct Hc.
Defined.

(** ** Priorities as numbers *)

(** X21.  Where lower-casing turns 'Alta', 'Média' and 'Baixa' into 'alta',
    'média' and 'baixa': going from a number to its priority and back gives
    3, 2 or 1 back and turns any other number into 2; and going from one
    of the three priorities to its number and back gives the priority
    back. *)
Theorem priority_round_trip (env : Env) (n : Q) :
  toLowerCase env (js "Alta") = js "alta" ->
  toLowerCase env (js "Média") = js "média" ->
  toLowerCase env (js "Baixa") = js "baixa" ->
  priorityToNumber env (numberToPriority n)
  = (if Qeq_bool n 3 then 3 else if Qeq_bool n 1 then 1 else 2)%Q
  /\ numberToPriority (priorityToNumber env (js "Alta")) = js "Alta"
  /\ numberToPriority (priorityToNumber env (js "Média")) = js "Média"
  /\ numberToPriority (priorityToNumber env (js "Baixa")) = js "Baixa".
Proof.
  intros Ha Hm Hb. unfold priorityToNumber, numberToPriority.
  split; [| rewrite Ha, Hm, Hb; by vm_compute].
  destruct (Qeq_bool n 3); [rewrite Ha; reflexivity |].
  destruct (Qeq_bool n 2) eqn:H2.
  - rewrite Hm. destruct (Qeq_bool n 1) eqn:H1; [| reflexivity].
    apply Qeq_bool_iff in H1, H2. rewrite H1 in H2. discriminate.
  - destruct (Qeq_bool n 1); [rewrite Hb | rewrite Hm]; reflexivity.
Qed.

Lemma priority_round_trip_witness :
  let env := answering reply_greeting in
  priorityToNumber env (numberToPriority 7)
  = (if Qeq_bool 7 3 then 3 else if Qeq_bool 7 1 then 1 else 2)%Q
  /\ numberToPriority (priorityToNumber env (js "Alta")) = js "Alta"
  /\ numberToPriority (priorityToNumber env (js "Média")) = js "Média"
  /\ numberToPriority (priorityToNumber env (js "Baixa")) = js "Baixa".
Proof.
  exact (priority_round_trip (answering reply_greeting) 7 eq_refl eq_refl eq_refl).
Defined.

(** ** Notion ids *)

Lemma test_compact_length (pattern : list id_char) (s : jsstring) :
  test pattern s = true ->
  length (List.filter not_dash s)
  = length (List.filter (fun k => match k with Hex => true | Dash => false end) pattern).
Proof.
  revert s. induction pattern as [| k pattern IH]; intros [| c s]; simpl; try done.
  intros [Hk Hrest]%andb_true_iff. specialize (IH s Hrest).
  destruct k; simpl in Hk.
  - assert (not_dash c = true) as ->; [| simpl; by rewrite IH].
    unfold not_dash. destruct (N.eqb_spec c 45) as [-> | _]; [by vm_compute in Hk | done].
  - unfold not_dash. by rewrite Hk.
Qed.

Lemma filter_all {A} (f : A -> bool) (l : list A) :
  forallb f l = true -> List.filter f l = l.
Proof.
  induction l as [| x l IH]; simpl; [done |].
  intros [-> Hl]%andb_true_iff. by rewrite IH.
Qed.

Lemma forallb_take {A} (f : A -> bool) (n : nat) (l : list A) :
  forallb f l = true -> forallb f (take n l) = true.
Proof.
  revert n. induction l as [| x l IH]; intros [| n]; simpl; try done.
  intros [-> Hl]%andb_true_iff. by apply IH.
Qed.

Lemma forallb_drop {A} (f : A -> bool) (n : nat) (l : list A) :
  forallb f l = true -> forallb f (drop n l) = true.
Proof.
  revert n. induction l as [| x l IH]; intros [| n]; simpl; try done.
  intros [_ Hl]%andb_true_iff. by apply IH.
Qed.

Lemma filter_hyphenate (w : jsstring) :
  forallb not_dash w = true -> List.filter not_dash (hyphenate w) = w.
Proof.
  intros Hw. unfold hyphenate.
  rewrite !List.filter_app. simpl.
  rewrite !filter_all by (by repeat first [apply forallb_take | apply forallb_drop]).
  assert (Hsplit : forall n k, drop n w = take k (drop n w) ++ drop (n + k) w)
    by (intros n k; by rewrite <- drop_drop, take_drop).
  pose proof (Hsplit 16 4)%nat as H16. pose proof (Hsplit 12 4)%nat as H12.
  pose proof (Hsplit 8 4)%nat as H8. cbn [Nat.add] in H16, H12, H8.
  rewrite <- H16, <- H12, <- H8. apply take_drop.
Qed.

Lemma filter_regroup (s : jsstring) :
  forallb not_dash s = true -> List.filter not_dash (regroup s) = s.
Proof.
  induction s as [| c s IH]; intros Hs; [done |].
  cbn [regroup].
  destruct ((32 <=? length (c :: s))%nat && forallb is_dot (take 32 (c :: s))).
  - rewrite List.filter_app, filter_hyphenate by (by apply forallb_take).
    rewrite filter_all by (by apply forallb_drop). apply take_drop.
  - simpl in Hs. apply andb_true_iff in Hs as [Hc Hs]. simpl. rewrite Hc. by rewrite IH.
Qed.

Lemma forallb_filter {A} (f : A -> bool) (l : list A) : forallb f (List.filter f l) = true.
Proof.
  induction l as [| x l IH]; simpl; [done |].
  destruct (f x) eqn:Hx; simpl; [by rewrite Hx |]; done.
Qed.

(** X22.  [isValidNotionId] accepts an id exactly when the id as given is
    already in the hyphenated form 8-4-4-4-12 of hexadecimal digits: the
    regrouping that it applies to the other ids never makes one
    acceptable.  An id of 32 hexadecimal digits without hyphens is thus
    always refused. *)
Theorem isValidNotionId_hyphenated_only (id : jsstring) :
  isValidNotionId id = test notionIdRegex id
  /\ (length id = 32%nat -> forallb (id_char_ok Hex) id = true -> isValidNotionId id = false).
Proof.
  assert (Hmain : isValidNotionId id = test notionIdRegex id).
  { unfold isValidNotionId. cbv zeta.
    destruct (Nat.eqb_spec (length (List.filter not_dash id)) 32) as [_ | Hlen]; [done |].
    destruct (test notionIdRegex id) eqn:Hid.
    - apply test_compact_length in Hid. by vm_compute in Hid.
    - destruct (test notionIdRegex (regroup (List.filter not_dash id))) eqn:Hre; [| done].
      apply test_compact_length in Hre.
      rewrite filter_regroup in Hre by apply forallb_filter.
      by vm_compute in Hre. }
  split; [done |]. intros Hlen Hhex. rewrite Hmain.
  destruct (test notionIdRegex id) eqn:Hid; [| done].
  assert (Hlen' : forall pattern s, test pattern s = true -> length s = length pattern).
  { clear. induction pattern as [| k pattern IH]; intros [| c s]; simpl; try done.
    intros [_ Hrest]%andb_true_iff. by rewrite (IH s). }
  apply Hlen' in Hid. rewrite Hlen in Hid. by vm_compute in Hid.
Qed.

Lemma isValidNotionId_hyphenated_only_witness :
  isValidNotionId (js "0123456789abcdef0123456789ABCDEF") = false.
Proof.
  exact (proj2 (isValidNotionId_hyphenated_only (js "0123456789abcdef0123456789ABCDEF"))
           eq_refl eq_refl).
Defined.

(** ** The dashboard of the Notion services *)

Lemma filter_length_le {A} (f : A -> bool) (l : list A) :
  (length (List.filter f l) <= length l)%nat.
Proof. induction l as [| x l IH]; simpl; [lia |]. destruct (f x); simpl; lia. Qed.

Lemma filter_disjoint_length {A} (f g : A -> bool) (l : list A) :
  (forall x, f x && g x = false) ->
  (length (List.filter f l) + length (List.filter g l) <= length l)%nat.
Proof.
  intros Hfg. induction l as [| x l IH]; simpl; [lia |].
  specialize (Hfg x). destruct (f x), (g x); simpl in *; try done; lia.
Qed.

Lemma filter_or_length {A} (f g : A -> bool) (l : list A) :
  (forall x, f x && g x = false) ->
  (length (List.filter f l) + length (List.filter g l)
   = length (List.filter (fun x => f x || g x) l))%nat.
Proof.
  intros Hfg. induction l as [| x l IH]; simpl; [lia |].
  specialize (Hfg x). destruct (f x), (g x); simpl in *; try done; lia.
Qed.

Lemma is_text_exclusive (v : value) (a b : string) :
  js a <> js b -> is_text v a && is_text v b = false.
Proof.
  intros Hab. unfold is_text, intent_is. destruct v; try done.
  destruct (jsstring_eqb s (js a)) eqn:Ha; [| done].
  destruct (jsstring_eqb s (js b)) eqn:Hb; [| done].
  apply jsstring_eqb_eq in Ha, Hb. congruence.
Qed.

(** X23.  In the summary of [getDashboardSummary] the counts are
    consistent: pending, in-progress and completed tasks are told apart
    and together are at most all the tasks; an overdue task is never a
    completed one nor one that is due today; the active projects are among
    the projects; and the lists of [getOverdueTasks] and [getTodayTasks]
    have the lengths that the summary reports. *)
Theorem dashboard_counts (today tomorrow : Z) (allTasks : list StoredTask)
    (allProjects : list StoredProject) (allNotes : list value) :
  let summary := getDashboardSummary today tomorrow allTasks allProjects allNotes in
  (pendingTasks summary + inProgressTasks summary + completedTasks summary
   <= totalTasks summary)%nat
  /\ (overdueTasks summary + completedTasks summary <= totalTasks summary)%nat
  /\ (overdueTasks summary + todayTasks summary <= totalTasks summary)%nat
  /\ (activeProjects summary <= totalProjects summary)%nat
  /\ totalNotes summary = length allNotes
  /\ overdueTasks summary = length (getOverdueTasks today allTasks)
  /\ todayTasks summary = length (getTodayTasks today tomorrow allTasks)
  /\ Forall (fun t => is_text (stored_status t) "Concluído" = false
                      /\ is_due_today today tomorrow t = false)
            (getOverdueTasks today allTasks).
Proof.
  intros summary. subst summary. cbn [getDashboardSummary totalTasks pendingTasks
    inProgressTasks completedTasks overdueTasks todayTasks totalProjects activeProjects
    totalNotes].
  assert (Hover_done : forall t,
             is_overdue today t && is_text (stored_status t) "Concluído" = false).
  { intros t. unfold is_overdue. destruct (stored_dueDate t); [| done].
    by destruct (date_before j today), (is_text (stored_status t) "Concluído"). }
  assert (Hover_today : forall t, is_overdue today t && is_due_today today tomorrow t = false).
  { intros t. unfold is_overdue, is_due_today. destruct (stored_dueDate t) as [[x |] |];
      try done. simpl.
    destruct (Z.ltb_spec x today), (Z.leb_spec today x); simpl; try done; try lia.
    all: by rewrite ?andb_false_r. }
  split; [| split; [| split; [| split; [| split; [| split; [| split]]]]]]; try done.
  - rewrite (filter_or_length _ _ allTasks)
      by (intros t; apply is_text_exclusive; by vm_compute).
    apply filter_disjoint_length. intros t.
    rewrite andb_orb_distrib_l.
    rewrite !is_text_exclusive by (by vm_compute). done.
  - by apply filter_disjoint_length.
  - by apply filter_disjoint_length.
  - apply filter_length_le.
  - unfold getOverdueTasks. apply Forall_forall. intros t Hin%list_elem_of_In.
    apply filter_In in Hin as [_ Ht].
    specialize (Hover_done t). specialize (Hover_today t). rewrite Ht in *. done.
Qed.
